(** * koishi-plugin-pinyin: platform resolution and artifact acquisition

    A shallow embedding of the two source files of the plugin:

    - [downloader.ts]: [DownloadError], [handleFile], [extract];
    - the service file, in its two versions: the class method
      [getNativeBinding] that looks the artifact name up in the object
      [platformArchMap] (module [TableDriven]) and the free function
      [getNativeBinding] that finds it with nested [switch] statements
      (module [NestedSwitch]); both share [isMusl] and [UnsupportedError].

    Strings are [string]; a thrown JavaScript value is an [Error] object
    (class and message) or a primitive string; the file system, the
    registry, the downloader, the archive streams and [require] are an
    explicit environment, and every effectful function runs in a small
    monad that threads the set of files on disk, records the observable
    events and propagates exceptions. *)

From Stdlib Require Import String Ascii List Bool Arith Lia.
Import ListNotations.
Local Open Scope list_scope.
Local Open Scope string_scope.

(** ** Strings as JavaScript uses them *)

Module JsString.

(** [s.startsWith(p)]. *)
Definition startsWith (s p : string) : bool := String.prefix p s.

(** [s.includes(sub)]: [sub] occurs somewhere in [s]. *)
Fixpoint includes (s sub : string) : bool :=
  if startsWith s sub then true
  else match s with
       | EmptyString => false
       | String _ rest => includes rest sub
       end.

(** The characters of [s] after the first [n]. *)
Fixpoint drop (n : nat) (s : string) : string :=
  match n, s with
  | O, _ => s
  | S _, EmptyString => EmptyString
  | S k, String _ rest => drop k rest
  end.

(** [s.replace(pat, rep)] with a string pattern: only the first
    occurrence is replaced.  ([rep] is inserted literally; the callers
    below pass ["-"], which holds no [$] pattern.) *)
Fixpoint replace (s pat rep : string) : string :=
  if startsWith s pat then rep ++ drop (String.length pat) s
  else match s with
       | EmptyString => EmptyString
       | String c rest => String c (replace rest pat rep)
       end.

(** A value used as a condition: the empty string is falsy. *)
Definition truthy (s : string) : bool :=
  match s with EmptyString => false | String _ _ => true end.

(** The text [sub] appears in [s] (the relation behind [includes]). *)
Definition occurs_in (sub s : string) : Prop :=
  exists pre post, s = pre ++ sub ++ post.

End JsString.

(** ** Thrown values and results *)

(** The classes of [Error] object the program distinguishes with
    [instanceof], and the engine's [TypeError]. *)
Inductive error_class : Type :=
| ErrorClass
| TypeErrorClass
| DownloadErrorClass
| UnsupportedErrorClass.

(** A value that reaches a [catch]: an [Error] object, or a primitive
    string (a promise rejected with a string). *)
Inductive thrown : Type :=
| ErrorObject (cls : error_class) (message : string)
| StringValue (s : string).

(** [new DownloadError(message)], [new UnsupportedError(message)],
    [new Error(message)]. *)
Definition DownloadError (message : string) : thrown :=
  ErrorObject DownloadErrorClass message.
Definition UnsupportedError (message : string) : thrown :=
  ErrorObject UnsupportedErrorClass message.
Definition Error (message : string) : thrown :=
  ErrorObject ErrorClass message.

(** [e instanceof DownloadError], [e instanceof UnsupportedError]. *)
Definition instanceof_DownloadError (e : thrown) : bool :=
  match e with ErrorObject DownloadErrorClass _ => true | _ => false end.
Definition instanceof_UnsupportedError (e : thrown) : bool :=
  match e with ErrorObject UnsupportedErrorClass _ => true | _ => false end.

(** The [name] property of each class. *)
Definition class_name (c : error_class) : string :=
  match c with
  | ErrorClass => "Error"
  | TypeErrorClass => "TypeError"
  | DownloadErrorClass => "DownloadError"
  | UnsupportedErrorClass => "UnsupportedError"
  end.

(** [`${e.message}`]: the message of an [Error] object; a primitive
    string has no [message] property, so the template prints
    [undefined]. *)
Definition message_text (e : thrown) : string :=
  match e with
  | ErrorObject _ m => m
  | StringValue _ => "undefined"
  end.

(** [`${err}`]: [Error.prototype.toString] gives [name: message] (the
    name alone when the message is empty); a string prints as itself. *)
Definition to_text (e : thrown) : string :=
  match e with
  | ErrorObject c EmptyString => class_name c
  | ErrorObject c m => class_name c ++ ": " ++ m
  | StringValue s => s
  end.

Inductive Result (A : Type) : Type :=
| Ok (a : A)
| Throw (e : thrown).
Arguments Ok {A} a.
Arguments Throw {A} e.

(** The call ended in a [DownloadError] / an [UnsupportedError]. *)
Definition fails_with {A : Type} (c : error_class) (r : Result A) : Prop :=
  exists m, r = Throw (ErrorObject c m).

(** ** The process: platform, architecture and the libc probe *)

Record Process : Type := mkProcess {
  platform : string;                (* process.platform *)
  arch : string;                    (* process.arch *)
  (* [process.report.getReport] when it is a function: the value of
     [report.header?.glibcVersionRuntime], [None] for [undefined] *)
  report : option (option string);
  (* the text of the file [which ldd] names, [None] when running
     [which] or reading the file throws *)
  ldd : option string
}.

(** [isMusl()]. *)
Definition isMusl (p : Process) : bool :=
  match report p with
  | None =>
      match ldd p with
      | Some text => JsString.includes text "musl"
      | None => true
      end
  | Some glibcVersionRuntime =>
      match glibcVersionRuntime with
      | Some v => negb (JsString.truthy v)
      | None => true
      end
  end.

(** ** Objects read as tables *)

(** An object whose values all have type [V], as the list of its own
    properties in source order, each key once.  [get o k] is [o[k]], with
    [None] for [undefined].  The keys asked for are [process.platform]
    and [process.arch] values and the names [dist] and [tarball], none of
    which names a property inherited from [Object.prototype]. *)
Definition object (V : Type) : Type := list (string * V).

Fixpoint get {V : Type} (o : object V) (k : string) : option V :=
  match o with
  | [] => None
  | (k', v) :: rest => if String.eqb k k' then Some v else get rest k
  end.

(** ** Values of a registry response *)

(** What [http.get] resolves to, as far as [handleFile] looks into it:
    [undefined], [null], a string (a body that was not parsed as JSON) or
    an object with its own properties. *)
#[warnings="-register-all"] Inductive jsval : Type :=
| JUndefined
| JNull
| JString (s : string)
| JObject (fields : object jsval).

(** [new TypeError(message)], with V8's wording for a property read on
    [undefined] or [null]. *)
Definition TypeError (message : string) : thrown :=
  ErrorObject TypeErrorClass message.

Definition cannot_read (base property : string) : thrown :=
  TypeError ("Cannot read properties of " ++ base
             ++ " (reading '" ++ property ++ "')").

(** [v.k] (the two reads of [res.dist.tarball]): a [TypeError] on
    [undefined] and [null], [undefined] for a property that is not
    there. *)
Definition getProperty (v : jsval) (k : string) : Result jsval :=
  match v with
  | JUndefined => Throw (cannot_read "undefined" k)
  | JNull => Throw (cannot_read "null" k)
  | JString _ => Ok JUndefined
  | JObject fields =>
      match get fields k with
      | Some w => Ok w
      | None => Ok JUndefined
      end
  end.

(** A value used as a condition. *)
Definition js_truthy (v : jsval) : bool :=
  match v with
  | JUndefined | JNull => false
  | JString s => JsString.truthy s
  | JObject _ => true
  end.

(** [`${v}`]. *)
Definition js_text (v : jsval) : string :=
  match v with
  | JUndefined => "undefined"
  | JNull => "null"
  | JString s => s
  | JObject _ => "[object Object]"
  end.

(** ** Paths

    [nodeDir] comes out of [path.resolve]: an absolute, normalised POSIX
    path.  On such paths [path.join] puts a separator between its
    arguments, [path.resolve] of one absolute path returns it and
    [path.dirname] cuts the last segment off. *)
Module Path.

Definition join3 (a b c : string) : string := a ++ "/" ++ b ++ "/" ++ c.

Definition resolve (p : string) : string := p.

(** The text before the last separator of [s], when [s] has one. *)
Fixpoint before_last_separator (s : string) : option string :=
  match s with
  | EmptyString => None
  | String c rest =>
      match before_last_separator rest with
      | Some d => Some (String c d)
      | None => if Ascii.eqb c "/" then Some EmptyString else None
      end
  end.

Definition dirname (p : string) : string :=
  match before_last_separator p with
  | Some EmptyString => "/"
  | Some d => d
  | None => "."
  end.

End Path.

(** ** Observable events, the environment and the monad *)

(** What a run leaves behind besides its result: the logger's lines and
    the calls that leave the process. *)
Inductive event : Type :=
| LogInfo (text : string)
| LogError (text : string) (e : thrown)
| LogSuccess (text : string)
| HttpGet (url : string)
| Download (url : jsval) (directory : string)
| Extract (filePath : string)
| Require (path : string).

(** The events that reach the network: the registry request and the
    download of the archive. *)
Definition is_network (ev : event) : bool :=
  match ev with
  | HttpGet _ | Download _ _ => true
  | _ => false
  end.

Definition network_requests (evs : list event) : list event :=
  filter is_network evs.

Definition is_extract (ev : event) : bool :=
  match ev with Extract _ => true | _ => false end.

(** The report of [downloader.download()]. *)
Record DownloaderReport : Type := mkReport {
  filePath : option string;        (* [null] when nothing was saved *)
  downloadStatus : string          (* "COMPLETE" or "ABORTED" *)
}.

(** How the piped streams of [extract] end: with the [finish] event of
    the tar stream, with an [error] event of one of the three streams, or
    with an exception while the streams are set up. *)
Inductive stream_end : Type :=
| Finished
| ReadError (err : thrown)
| GunzipError (err : thrown)
| ExtractionError (err : thrown)
| SetupError (err : thrown).

Record Unpacking : Type := mkUnpacking {
  written : list string;           (* archive members written, relative *)
  ending : stream_end
}.

(** The module [require] returns, named by the file it was loaded from. *)
Inductive NativeBinding : Type :=
| LoadedFrom (path : string).

(** Everything outside the program. *)
Record Env : Type := mkEnv {
  http_get : string -> Result jsval;                 (* http.get(url) *)
  download : jsval -> string -> Result DownloaderReport;
                              (* new Downloader({url, directory}).download() *)
  unpack : string -> Unpacking;                      (* the streams of extract *)
  load : string -> option thrown                     (* loading a file that is there *)
}.

(** The files on disk. *)
Definition Files : Type := list string.

Definition on_disk (fs : Files) (p : string) : bool :=
  existsb (String.eqb p) fs.

(** A computation reads and extends the files on disk, emits events and
    returns or throws. *)
Definition M (A : Type) : Type := Files -> Result A * Files * list event.

Definition ret {A : Type} (a : A) : M A := fun fs => (Ok a, fs, []).

Definition throw {A : Type} (e : thrown) : M A := fun fs => (Throw e, fs, []).

Definition bind {A B : Type} (m : M A) (k : A -> M B) : M B :=
  fun fs =>
    match m fs with
    | (Ok a, fs1, evs1) =>
        match k a fs1 with
        | (r, fs2, evs2) => (r, fs2, (evs1 ++ evs2)%list)
        end
    | (Throw e, fs1, evs1) => (Throw e, fs1, evs1)
    end.

(** [try { body } catch (e) { handler }]. *)
Definition tryCatch {A : Type} (body : M A) (handler : thrown -> M A) : M A :=
  fun fs =>
    match body fs with
    | (Ok a, fs1, evs1) => (Ok a, fs1, evs1)
    | (Throw e, fs1, evs1) =>
        match handler e fs1 with
        | (r, fs2, evs2) => (r, fs2, (evs1 ++ evs2)%list)
        end
    end.

Definition emit (ev : event) : M unit := fun fs => (Ok tt, fs, [ev]).

Definition lift {A : Type} (r : Result A) : M A := fun fs => (r, fs, []).

Definition write_files (ps : list string) : M unit :=
  fun fs => (Ok tt, (ps ++ fs)%list, []).

Declare Scope js_scope.
Delimit Scope js_scope with js.
Notation "x <- m ;; k" := (bind m (fun x => k))
  (at level 61, m at next level, right associativity) : js_scope.
Notation "m ;; k" := (bind m (fun _ => k))
  (at level 61, right associativity) : js_scope.
Local Open Scope js_scope.

(** The result, the files and the events of a run. *)
Definition result_of {A : Type} (r : Result A * Files * list event) : Result A :=
  fst (fst r).
Definition files_of {A : Type} (r : Result A * Files * list event) : Files :=
  snd (fst r).
Definition events_of {A : Type} (r : Result A * Files * list event) : list event :=
  snd r.

(** [fs.existsSync(p)]. *)
Definition existsSync (p : string) : M bool := fun fs => (Ok (on_disk fs p), fs, []).

(** [await http.get(url)]. *)
Definition httpGet (env : Env) (url : string) : M jsval :=
  emit (HttpGet url) ;; lift (http_get env url).

(** [new Downloader({url, directory, onProgress})] followed by
    [await downloader.download()]: a saved file is on disk afterwards.
    (Building the downloader does not throw, and the progress lines of
    [onProgress] are not recorded.) *)
Definition runDownload (env : Env) (url : jsval) (directory : string)
  : M DownloaderReport :=
  emit (Download url directory) ;;
  r <- lift (download env url directory) ;;
  match filePath r with
  | Some p => write_files [p] ;; ret r
  | None => ret r
  end.

(** [require(p)] of an absolute path: the file at [p] is loaded, and a
    path with no file behind it cannot be.  (The directory holds only
    what the downloader and the archive put there, so the names Node
    would try next, [p] with an extension added, are not there either.) *)
Definition require (env : Env) (p : string) : M NativeBinding :=
  emit (Require p) ;;
  present <- existsSync p ;;
  if present then
    match load env p with
    | None => ret (LoadedFrom p)
    | Some e => throw e
    end
  else throw (Error ("Cannot find module '" ++ p ++ "'")).

(** ** downloader.ts *)

(** [extract(filePath)]: unpack the archive into the directory that
    holds it.  Every failure rejects the promise with a string. *)
Definition extract (env : Env) (filePath : string) : M unit :=
  let outputDir := Path.dirname filePath in
  emit (Extract filePath) ;;
  let u := unpack env filePath in
  write_files (map (fun member => outputDir ++ "/" ++ member) (written u)) ;;
  match ending u with
  | Finished => ret tt
  | ReadError err =>
      throw (StringValue
               ("An error occurred while reading the file: " ++ to_text err))
  | GunzipError err =>
      throw (StringValue
               ("An error occurred while gunzipping the file: " ++ to_text err))
  | ExtractionError err =>
      throw (StringValue
               ("An error occurred during extraction: " ++ to_text err))
  | SetupError err =>
      throw (StringValue
               ("An unexpected error occurred during the extraction process: "
                ++ to_text err))
  end.

(** The address of the registry entry of [nodeName]. *)
Definition metadata_url (nodeName : string) : string :=
  "https://registry.npmjs.com/@napi-rs/"
  ++ JsString.replace nodeName "." "-" ++ "/latest".

(** [res.dist.tarball]. *)
Definition read_tarball (res : jsval) : Result jsval :=
  match getProperty res "dist" with
  | Ok dist => getProperty dist "tarball"
  | Throw e => Throw e
  end.

(** The double quote character, for messages that hold one. *)
Definition dquote : string := String (ascii_of_nat 34) EmptyString.

(** [path.resolve(filePath)] on the report's path; [null] is not a
    path. *)
Definition resolve_reported (p : option string) : Result string :=
  match p with
  | Some f => Ok (Path.resolve f)
  | None =>
      Throw (TypeError
               ("The " ++ dquote ++ "paths[0]" ++ dquote
                ++ " argument must be of type string. Received null"))
  end.

(** [`${filePath}`]. *)
Definition reported_text (p : option string) : string :=
  match p with Some f => f | None => "null" end.

(** [handleFile(nodeDir, nodeName, logger, http)]. *)
Definition handleFile (env : Env) (nodeDir nodeName : string) : M unit :=
  let url := metadata_url nodeName in
  tarballUrl <-
    tryCatch
      (res <- httpGet env url ;;
       tarball <- lift (read_tarball res) ;;
       emit (LogInfo ("Stating download from " ++ js_text tarball)) ;;
       ret tarball)
      (fun e =>
         emit (LogError ("Failed to fetch from URL: " ++ url) e) ;;
         throw (DownloadError ("Failed to fetch from URL: " ++ message_text e))) ;;
  if negb (js_truthy tarballUrl) then
    throw (DownloadError ("Failed to get the binary url from " ++ url))
  else
    tryCatch
      (r <- runDownload env tarballUrl nodeDir ;;
       if downloadStatus r =? "COMPLETE" then
         resolved <- lift (resolve_reported (filePath r)) ;;
         extract env resolved ;;
         emit (LogSuccess ("File downloaded successfully at "
                           ++ reported_text (filePath r)))
       else throw (DownloadError "Download was aborted"))
      (fun e =>
         emit (LogError "Failed to download the file" e) ;;
         throw (DownloadError
                  ("Failed to download the binary file: " ++ message_text e))).

(** ** The service file *)

(** The second part of [getNativeBinding], the same in both versions:
    look for the binary, fetch it when it is missing, load it.
    [acquire] is the call of [handleFile]. *)
Definition bindNative (env : Env) (acquire : string -> string -> M unit)
    (platform arch nodeDir nodeName : string) : M NativeBinding :=
  let nodeFile := nodeName ++ ".node" in
  let nodePath := Path.join3 nodeDir "package" nodeFile in
  localFileExisted <- existsSync nodePath ;;
  tryCatch
    ((if negb localFileExisted then acquire nodeDir nodeName else ret tt) ;;
     require env nodePath)
    (fun e =>
       emit (LogError "在处理二进制文件时遇到了错误" e) ;;
       if instanceof_DownloadError e then throw e
       else throw (Error ("Failed to use " ++ nodePath ++ " on "
                          ++ platform ++ "-" ++ arch))).

(** The path [getNativeBinding] expects the binary at. *)
Definition nodePath (nodeDir nodeName : string) : string :=
  Path.join3 nodeDir "package" (nodeName ++ ".node").

(** ** The service: start-up and the command *)

(** What [start] leaves behind: the events of [getNativeBinding] and the
    lines it logs itself with [logger.error(text)]. *)
Inductive service_event : Type :=
| Inner (ev : event)
| ErrorLine (text : string).

(** The host of the service: [ctx.baseDir], [config.nodeBinaryPath],
    [path.resolve] of two paths and [mkdir(dir, { recursive: true })]
    ([None] when the directory is there afterwards). *)
Record Host : Type := mkHost {
  baseDir : string;
  nodeBinaryPath : string;
  path_resolve : string -> string -> string;
  mkdir : string -> option thrown
}.

(** The directory [start] works in. *)
Definition nodeDir_of (host : Host) : string :=
  path_resolve host (baseDir host) (nodeBinaryPath host).

(** [start()], the same in both versions up to the two texts it logs
    and the [getNativeBinding] it calls.  The result is the module whose
    three functions the service holds afterwards. *)
Definition startService (unsupportedLine successLine : string)
    (getNativeBinding : string -> M NativeBinding) (host : Host)
  : Files -> Result NativeBinding * Files * list service_event :=
  fun fs =>
    let nodeDir := nodeDir_of host in
    match mkdir host nodeDir with
    | Some e => (Throw e, fs, [])
    | None =>
        match getNativeBinding nodeDir fs with
        | (Ok nativeBinding, fs1, evs) =>
            (Ok nativeBinding, fs1,
             List.app (map Inner evs) [Inner (LogSuccess successLine)])
        | (Throw e, fs1, evs) =>
            (Throw e, fs1,
             List.app (map Inner evs)
               (List.app
                  (if instanceof_UnsupportedError e
                   then [ErrorLine unsupportedLine] else [])
                  (if instanceof_DownloadError e
                   then [ErrorLine "下载二进制文件遇到错误，请查看日志获取更详细信息"]
                   else [])))
        end
    end.

(** The events of [getNativeBinding] among those of [start]. *)
Definition inner_events (evs : list service_event) : list event :=
  flat_map (fun ev => match ev with Inner e => [e] | ErrorLine _ => [] end) evs.


(** ** The resolver, looked up in [platformArchMap] *)

Module TableDriven.

(** The object [platformArchMap]; [musl] is what [isMusl()] returns. *)
Definition platformArchMap (musl : bool) : object (object string) :=
  [ ("android",
      [ ("arm64", "pinyin.android-arm64");
        ("arm", "pinyin.android-arm-eabi") ]);
    ("win32",
      [ ("x64", "pinyin.win32-x64-msvc");
        ("ia32", "pinyin.win32-ia32-msvc");
        ("arm64", "pinyin.win32-arm64-msvc") ]);
    ("darwin",
      [ ("x64", "pinyin.darwin-x64");
        ("arm64", "pinyin.darwin-arm64") ]);
    ("freebsd",
      [ ("x64", "pinyin.freebsd-x64") ]);
    ("linux",
      [ ("x64", if musl then "pinyin.linux-x64-musl"
                else "pinyin.linux-x64-gnu");
        ("arm64", if musl then "pinyin.linux-arm64-musl"
                  else "pinyin.linux-arm64-gnu");
        ("arm", "pinyin.linux-arm-gnueabihf") ]) ].

(** The first part of [getNativeBinding]: the value of [nodeName], or
    the [UnsupportedError] thrown before it is assigned. *)
Definition resolve (platform arch : string) (musl : bool) : Result string :=
  match get (platformArchMap musl) platform with
  | None =>
      Throw (UnsupportedError
               ("Unsupported OS: " ++ platform ++ ", architecture: " ++ arch))
  | Some archMap =>
      match get archMap arch with
      | Some nodeName =>
          if JsString.truthy nodeName then Ok nodeName
          else Throw (UnsupportedError
                        ("Unsupported architecture on " ++ platform ++ ": " ++ arch))
      | None =>
          Throw (UnsupportedError
                   ("Unsupported architecture on " ++ platform ++ ": " ++ arch))
      end
  end.

(** [getNativeBinding(nodeDir)], the method of the class [Pinyin]. *)
Definition getNativeBinding (env : Env) (proc : Process) (nodeDir : string)
  : M NativeBinding :=
  nodeName <- lift (resolve (platform proc) (arch proc) (isMusl proc)) ;;
  bindNative env (handleFile env) (platform proc) (arch proc) nodeDir nodeName.

(** [start()] of the class [Pinyin]. *)
Definition start (env : Env) (proc : Process) (host : Host)
  : Files -> Result NativeBinding * Files * list service_event :=
  startService "Pinyin 目前不支持你的系统" "Pinyin 服务启动成功"
               (getNativeBinding env proc) host.

End TableDriven.

(** ** The resolver, as nested [switch] statements *)

Module NestedSwitch.

Definition resolve (platform arch : string) (musl : bool) : Result string :=
  if platform =? "android" then
    if arch =? "arm64" then Ok "pinyin.android-arm64"
    else if arch =? "arm" then Ok "pinyin.android-arm-eabi"
    else Throw (UnsupportedError
                  ("Unsupported architecture on Android " ++ arch))
  else if platform =? "win32" then
    if arch =? "x64" then Ok "pinyin.win32-x64-msvc"
    else if arch =? "ia32" then Ok "pinyin.win32-ia32-msvc"
    else if arch =? "arm64" then Ok "pinyin.win32-arm64-msvc"
    else Throw (UnsupportedError
                  ("Unsupported architecture on Windows: " ++ arch))
  else if platform =? "darwin" then
    if arch =? "x64" then Ok "pinyin.darwin-x64"
    else if arch =? "arm64" then Ok "pinyin.darwin-arm64"
    else Throw (UnsupportedError
                  ("Unsupported architecture on macOS: " ++ arch))
  else if platform =? "freebsd" then
    if negb (arch =? "x64") then
      Throw (UnsupportedError
               ("Unsupported architecture on FreeBSD: " ++ arch))
    else Ok "pinyin.freebsd-x64"
  else if platform =? "linux" then
    if arch =? "x64" then
      if musl then Ok "pinyin.linux-x64-musl" else Ok "pinyin.linux-x64-gnu"
    else if arch =? "arm64" then
      if musl then Ok "pinyin.linux-arm64-musl" else Ok "pinyin.linux-arm64-gnu"
    else if arch =? "arm" then Ok "pinyin.linux-arm-gnueabihf"
    else Throw (UnsupportedError
                  ("Unsupported architecture on Linux: " ++ arch))
  else
    Throw (UnsupportedError
             ("Unsupported OS: " ++ platform ++ ", architecture: " ++ arch)).

(** The name the messages of the inner [default] branches give each
    operating system. *)
Definition os_label (platform : string) : string :=
  if platform =? "android" then "Android"
  else if platform =? "win32" then "Windows"
  else if platform =? "darwin" then "macOS"
  else if platform =? "freebsd" then "FreeBSD"
  else if platform =? "linux" then "Linux"
  else platform.

(** [getNativeBinding(nodeDir)], the free function.  It calls
    [handleFile(nodeDir, nodeName, logger)], the three-argument
    [handleFile] of its own version of the downloader, which the
    sources do not hold: [handleFile3] stands for it. *)
Definition getNativeBinding (env : Env) (handleFile3 : string -> string -> M unit)
    (proc : Process) (nodeDir : string) : M NativeBinding :=
  nodeName <- lift (resolve (platform proc) (arch proc) (isMusl proc)) ;;
  bindNative env handleFile3 (platform proc) (arch proc) nodeDir nodeName.

(** [start()] of the class [pinyin]. *)
Definition start (env : Env) (handleFile3 : string -> string -> M unit)
    (proc : Process) (host : Host)
  : Files -> Result NativeBinding * Files * list service_event :=
  startService "pinyin 目前不支持你的系统" "pinyin 服务启动成功"
               (getNativeBinding env handleFile3 proc) host.

End NestedSwitch.

(** The (platform, architecture) pairs [platformArchMap] has an entry
    for, in source order. *)
Definition supported_pairs : list (string * string) :=
  flat_map (fun os => map (fun entry => (fst os, fst entry)) (snd os))
           (TableDriven.platformArchMap false).

(** [platformArchMap[platform][arch]], [None] when either read gives
    [undefined]. *)
Definition table_entry (musl : bool) (platform arch : string) : option string :=
  match get (TableDriven.platformArchMap musl) platform with
  | Some archMap => get archMap arch
  | None => None
  end.

(** The two resolvers agree on an input: the same name, or an
    [UnsupportedError] from both. *)
Definition same_resolution (r1 r2 : Result string) : Prop :=
  match r1, r2 with
  | Ok id1, Ok id2 => id1 = id2
  | Throw e1, Throw e2 =>
      instanceof_UnsupportedError e1 = true /\ instanceof_UnsupportedError e2 = true
  | _, _ => False
  end.

(** ** Notions used in the statements *)

(** The identifiers for the two libc flavours of one architecture share
    everything but the suffix [musl] / [gnu]. *)
Definition differ_only_in_libc_suffix (musl_id gnu_id : string) : Prop :=
  exists stem, musl_id = stem ++ "musl" /\ gnu_id = stem ++ "gnu".

(** The pairs whose name depends on the libc flavour. *)
Definition libc_split (platform arch : string) : Prop :=
  platform = "linux" /\ (arch = "x64" \/ arch = "arm64").

(** A run that went straight to [require]: nothing was fetched, nothing
    unpacked, nothing written, and the first thing that happened is the
    load of the file at [path]. *)
Definition skips_acquisition {A : Type} (path : string) (fs : Files)
    (run : Result A * Files * list event) : Prop :=
  files_of run = fs
  /\ network_requests (events_of run) = []
  /\ filter is_extract (events_of run) = []
  /\ hd_error (events_of run) = Some (Require path).

(** What [extract] rejects with when a stream fails. *)
Definition rejection (e : stream_end) : option string :=
  match e with
  | Finished => None
  | ReadError err =>
      Some ("An error occurred while reading the file: " ++ to_text err)
  | GunzipError err =>
      Some ("An error occurred while gunzipping the file: " ++ to_text err)
  | ExtractionError err =>
      Some ("An error occurred during extraction: " ++ to_text err)
  | SetupError err =>
      Some ("An unexpected error occurred during the extraction process: "
            ++ to_text err)
  end.


(** ** Scenarios *)

Module Scenario.

Definition nodeDir : string := "/koishi/node-rs/pinyin".
Definition nodeName : string := "pinyin.linux-x64-gnu".
Definition archive : string := "/koishi/node-rs/pinyin/pinyin-linux-x64-gnu-1.7.5.tgz".
Definition binary : string := "/koishi/node-rs/pinyin/package/pinyin.linux-x64-gnu.node".

(** A glibc Linux on x64. *)
Definition linux_x64 : Process :=
  mkProcess "linux" "x64" (Some (Some "2.31")) None.

(** The registry's answer for the package. *)
Definition metadata : jsval :=
  JObject
    [ ("name", JString "@napi-rs/pinyin-linux-x64-gnu");
      ("dist",
        JObject
          [ ("tarball",
              JString "https://registry.npmjs.org/@napi-rs/pinyin-linux-x64-gnu/-/pinyin-linux-x64-gnu-1.7.5.tgz") ]) ].

(** An environment that gives the same answers whatever it is asked. *)
Definition world (registry : Result jsval) (transfer : Result DownloaderReport)
    (streams : Unpacking) : Env :=
  mkEnv (fun _ => registry) (fun _ _ => transfer) (fun _ => streams)
        (fun _ => None).

Definition complete : Result DownloaderReport :=
  Ok (mkReport (Some archive) "COMPLETE").

Definition aborted : Result DownloaderReport :=
  Ok (mkReport None "ABORTED").

Definition unpacked : Unpacking :=
  mkUnpacking ["package/package.json"; "package/pinyin.linux-x64-gnu.node"] Finished.

(** Everything works. *)
Definition healthy : Env := world (Ok metadata) complete unpacked.

(** The registry cannot be reached. *)
Definition refused : Env :=
  world (Throw (Error "connect ECONNREFUSED 104.16.27.34:443")) complete unpacked.

(** The registry answers with an empty object. *)
Definition empty_body : Env := world (Ok (JObject [])) complete unpacked.

(** The transfer is aborted. *)
Definition interrupted : Env := world (Ok metadata) aborted unpacked.

(** The archive cannot be read, is not gzip, is not a tar archive. *)
Definition unreadable : Env :=
  world (Ok metadata) complete
        (mkUnpacking [] (ReadError (Error "EIO: i/o error, read"))).
Definition corrupt_gzip : Env :=
  world (Ok metadata) complete
        (mkUnpacking [] (GunzipError (Error "incorrect header check"))).
Definition corrupt_tar : Env :=
  world (Ok metadata) complete
        (mkUnpacking ["package/package.json"]
                     (ExtractionError (Error "TAR_BAD_ARCHIVE: Unrecognized archive format"))).

(** The transfer breaks off with an error. *)
Definition dropped : Env :=
  world (Ok metadata) (Throw (Error "socket hang up")) unpacked.

(** The registry answers with a [dist] that has no [tarball]. *)
Definition no_tarball : Env :=
  world (Ok (JObject [("dist", JObject [("shasum", JString "0a1b2c")])]))
        complete unpacked.

(** The archive does not hold the binary. *)
Definition wrong_archive : Env :=
  world (Ok metadata) complete (mkUnpacking ["package/package.json"] Finished).

(** A host whose directory is there. *)
Definition host : Host :=
  mkHost "/koishi" "node-rs/pinyin" (fun base rel => base ++ "/" ++ rel)
         (fun _ => None).

(** An operating system without an artifact. *)
Definition sunos_x64 : Process := mkProcess "sunos" "x64" None None.

(** The binary is there and is not a loadable module. *)
Definition broken_binary : Env :=
  mkEnv (fun _ => Ok metadata) (fun _ _ => complete) (fun _ => unpacked)
        (fun _ => Some (Error "invalid ELF header")).

End Scenario.

(** No character of [s] is [c]. *)
Fixpoint free_of (c : ascii) (s : string) : bool :=
  match s with
  | EmptyString => true
  | String d rest => negb (Ascii.eqb d c) && free_of c rest
  end.

(** Every name [platformArchMap] holds, for either libc flavour. *)
Definition artifact_names : list string :=
  flat_map (fun os => map snd (snd os))
           (List.app (TableDriven.platformArchMap false)
                     (TableDriven.platformArchMap true)).

(** ** The command [pinyin <message:string>] *)

Module Command.

(** One element of what the native [pinyin] returns: a string, or, with
    [heteronym], the array of the readings of one character. *)
Inductive element : Type :=
| Text (s : string)
| Readings (l : list string).

(** [PinyinConvertOptions]. *)
Record PinyinConvertOptions : Type := mkConvert {
  style : nat;
  heteronym : bool;
  segment : bool
}.

(** The options of the command, after the fallbacks were applied. *)
Record Options : Type := mkOptions {
  opt_heteronym : bool;
  opt_segment : bool;
  opt_output : nat
}.

(** [array.join(sep)] on an array of strings. *)
Definition join (sep : string) (l : list string) : string := String.concat sep l.

(** The callback of [map]: the readings of a character joined with a
    slash, a string as it is. *)
Definition render (el : element) : string :=
  match el with
  | Readings l => join "/" l
  | Text s => s
  end.

(** [pinyinArray.map(...).join(' ')]. *)
Definition format (pinyinArray : list element) : string :=
  join " " (map render pinyinArray).

(** The callback of [action]: [pinyin] is the native function, [quote]
    the text of [h('quote', { id: session.messageId })], [message] the
    argument of the command ([None] when it was left out). *)
Definition action (pinyin : string -> PinyinConvertOptions -> list element)
    (quote : string) (options : Options) (message : option string) : string :=
  match message with
  | Some m =>
      if JsString.truthy m then
        quote ++ format (pinyin m (mkConvert (opt_output options)
                                             (opt_heteronym options)
                                             (opt_segment options)))
      else "你必须提供需要注音的内容"
  | None => "你必须提供需要注音的内容"
  end.

(** A syllable as the converter gives it without [heteronym]: not
    empty, and without a space. *)
Definition syllable (s : string) : bool :=
  JsString.truthy s && free_of " " s.

End Command.

(** The stage at which the streams of [extract] ended: 0 for the
    [finish] event, then the read stream, gunzip, the tar stream and the
    set-up. *)
Definition stage (e : stream_end) : nat :=
  match e with
  | Finished => 0
  | ReadError _ => 1
  | GunzipError _ => 2
  | ExtractionError _ => 3
  | SetupError _ => 4
  end.

(** ** Tactics *)

(** Case analysis on the comparison of a variable with a literal. *)
Ltac string_case :=
  match goal with
  | |- context [String.eqb ?x ?y] =>
      is_var x; destruct (String.eqb_spec x y); subst
  | H : context [String.eqb ?x ?y] |- _ =>
      is_var x; destruct (String.eqb_spec x y); subst
  end.

Ltac string_cases :=
  repeat (string_case; cbn [get String.eqb Ascii.eqb Bool.eqb negb];
          try discriminate; try congruence).

(** One goal per element of the list that [H : In x l] speaks of, [E]
    being the equation that spells the list out. *)
Ltac split_in H E :=
  rewrite E in H; simpl in H;
  repeat (destruct H as [H|H]; [inversion H; subst; clear H|]);
  [..|contradiction].

(** The same for a list of names: the element takes the place of [x]. *)
Ltac split_names H E :=
  rewrite E in H; simpl in H;
  repeat (destruct H as [H|H]; [subst|]);
  [..|contradiction].

(** Unfold the monad and the primitives of the environment. *)
Ltac run_monad :=
  unfold bindNative, handleFile, extract, runDownload, httpGet, require,
    existsSync, write_files, tryCatch, bind, emit, lift, ret, throw,
    result_of, files_of, events_of in *.

(** * Facts about strings *)

Module JsStringFacts.
Import JsString.

Lemma append_assoc (a b c : string) : (a ++ b) ++ c = a ++ (b ++ c).
Proof. induction a as [|ch a IH]; simpl; [reflexivity | now rewrite IH]. Qed.

Lemma append_nil_r (a : string) : a ++ EmptyString = a.
Proof. induction a as [|ch a IH]; simpl; [reflexivity | now rewrite IH]. Qed.

Lemma startsWith_spec (s p : string) :
  startsWith s p = true <-> exists post, s = p ++ post.
Proof.
  unfold startsWith. revert s.
  induction p as [|c p IH]; intros s; simpl.
  - destruct s; simpl; split; eauto.
  - destruct s as [|d s]; simpl.
    + split; [discriminate | intros [post H]; discriminate].
    + destruct (ascii_dec c d) as [->|Hne].
      * rewrite IH. split; intros [post H]; exists post.
        -- now rewrite H.
        -- now inversion H.
      * split; [discriminate | intros [post H]; inversion H; congruence].
Qed.

Lemma includes_spec (s sub : string) :
  includes s sub = true <-> occurs_in sub s.
Proof.
  unfold occurs_in.
  induction s as [|c s IH]; cbn [includes].
  - destruct (startsWith EmptyString sub) eqn:E.
    + apply startsWith_spec in E as [post E].
      split; [intros _; exists EmptyString, post; exact E | reflexivity].
    + split; [discriminate|].
      intros [pre [post H]].
      destruct pre; simpl in H; [|discriminate].
      assert (startsWith EmptyString sub = true) by (apply startsWith_spec; eauto).
      congruence.
  - destruct (startsWith (String c s) sub) eqn:E.
    + apply startsWith_spec in E as [post E].
      split; [intros _; exists EmptyString, post; exact E | reflexivity].
    + rewrite IH. split.
      * intros [pre [post H]]. exists (String c pre), post. simpl. now rewrite H.
      * intros [pre [post H]].
        destruct pre as [|d pre]; simpl in H.
        -- assert (startsWith (String c s) sub = true)
             by (apply startsWith_spec; eauto).
           congruence.
        -- inversion H; subst. eauto.
Qed.

Lemma includes_false (s sub : string) :
  includes s sub = false -> ~ occurs_in sub s.
Proof.
  intros E H. apply includes_spec in H. congruence.
Qed.

Lemma occurs_in_middle (pre sub post : string) :
  occurs_in sub (pre ++ sub ++ post).
Proof. now exists pre, post. Qed.

Lemma occurs_in_end (pre sub : string) : occurs_in sub (pre ++ sub).
Proof. exists pre, EmptyString. now rewrite append_nil_r. Qed.

Lemma occurs_in_app_l (sub s t : string) :
  occurs_in sub s -> occurs_in sub (s ++ t).
Proof.
  intros [pre [post ->]]. exists pre, (post ++ t).
  now rewrite !append_assoc.
Qed.

Lemma occurs_in_app_r (sub s t : string) :
  occurs_in sub t -> occurs_in sub (s ++ t).
Proof.
  intros [pre [post ->]]. exists (s ++ pre), post.
  now rewrite !append_assoc.
Qed.

End JsStringFacts.

(** * The resolvers *)

Section Resolvers.

Import JsString JsStringFacts.

Lemma supported_pairs_eq :
  supported_pairs =
    [ ("android", "arm64"); ("android", "arm");
      ("win32", "x64"); ("win32", "ia32"); ("win32", "arm64");
      ("darwin", "x64"); ("darwin", "arm64");
      ("freebsd", "x64");
      ("linux", "x64"); ("linux", "arm64"); ("linux", "arm") ].
Proof. reflexivity. Qed.

(** In the table every name is a non-empty string, so the truthiness
    test on the entry never fails: the table-driven resolver returns
    the entry, and throws exactly when a read gives [undefined]. *)
Lemma table_resolve_entry (platform arch : string) (musl : bool) (id : string) :
  table_entry musl platform arch = Some id ->
  TableDriven.resolve platform arch musl = Ok id.
Proof.
  unfold table_entry, TableDriven.resolve.
  destruct (get (TableDriven.platformArchMap musl) platform) as [archMap|] eqn:Eos;
    [|discriminate].
  intros Earch. rewrite Earch.
  revert Eos Earch. unfold TableDriven.platformArchMap.
  cbn [get].
  repeat (string_case; cbn [get String.eqb Ascii.eqb Bool.eqb];
          try discriminate);
    intros Eos; inversion Eos; subst; cbn [get];
    repeat (string_case; cbn [get String.eqb Ascii.eqb Bool.eqb];
            try discriminate);
    intros Earch; inversion Earch; subst; destruct musl; reflexivity.
Qed.

Lemma table_resolve_unknown_os (platform arch : string) (musl : bool) :
  get (TableDriven.platformArchMap musl) platform = None ->
  TableDriven.resolve platform arch musl =
    Throw (UnsupportedError
             ("Unsupported OS: " ++ platform ++ ", architecture: " ++ arch)).
Proof. unfold TableDriven.resolve. now intros ->. Qed.

Lemma table_resolve_unknown_arch (platform arch : string) (musl : bool)
    (archMap : object string) :
  get (TableDriven.platformArchMap musl) platform = Some archMap ->
  get archMap arch = None ->
  TableDriven.resolve platform arch musl =
    Throw (UnsupportedError
             ("Unsupported architecture on " ++ platform ++ ": " ++ arch)).
Proof. unfold TableDriven.resolve. now intros -> ->. Qed.

(** The nested switches reach the same name as the table, and their
    [default] branches are taken exactly where a read of the table
    gives [undefined]. *)
Lemma switch_resolve_entry (platform arch : string) (musl : bool) :
  match table_entry musl platform arch with
  | Some id => NestedSwitch.resolve platform arch musl = Ok id
  | None => fails_with UnsupportedErrorClass
              (NestedSwitch.resolve platform arch musl)
  end.
Proof.
  unfold table_entry, NestedSwitch.resolve, TableDriven.platformArchMap,
    fails_with, UnsupportedError.
  cbn [get].
  string_cases; cbn [get]; string_cases;
    try (destruct musl; reflexivity); eauto.
Qed.

Lemma table_resolve_no_entry (platform arch : string) (musl : bool) :
  table_entry musl platform arch = None ->
  fails_with UnsupportedErrorClass (TableDriven.resolve platform arch musl).
Proof.
  unfold table_entry. intros H.
  destruct (get (TableDriven.platformArchMap musl) platform) as [archMap|] eqn:Eos.
  - rewrite (table_resolve_unknown_arch _ _ _ _ Eos H). now eexists.
  - rewrite (table_resolve_unknown_os _ _ _ Eos). now eexists.
Qed.

Lemma resolvers_agree (platform arch : string) (musl : bool) :
  same_resolution (TableDriven.resolve platform arch musl)
                  (NestedSwitch.resolve platform arch musl).
Proof.
  pose proof (switch_resolve_entry platform arch musl) as Hs.
  destruct (table_entry musl platform arch) as [id|] eqn:E.
  - rewrite (table_resolve_entry _ _ _ _ E), Hs. reflexivity.
  - destruct (table_resolve_no_entry _ _ _ E) as [m1 ->].
    destruct Hs as [m2 ->]. simpl. auto.
Qed.

Lemma supported_iff_entry (platform arch : string) (musl : bool) :
  In (platform, arch) supported_pairs <->
  exists id, table_entry musl platform arch = Some id.
Proof.
  rewrite supported_pairs_eq. split.
  - intros H. simpl in H.
    repeat (destruct H as [H|H]; [inversion H; subst; destruct musl; eexists; reflexivity|]).
    contradiction.
  - intros [id H]. revert H.
    unfold table_entry, TableDriven.platformArchMap. cbn [get].
    string_cases; cbn [get]; string_cases; intros _; simpl; tauto.
Qed.

(** On Linux x64 and arm64 the flavour does change the name. *)
Lemma libc_flavour_matters_where_split (platform arch : string) :
  libc_split platform arch ->
  TableDriven.resolve platform arch true <> TableDriven.resolve platform arch false
  /\ NestedSwitch.resolve platform arch true
     <> NestedSwitch.resolve platform arch false.
Proof.
  intros [-> [-> | ->]]; split; vm_compute; discriminate.
Qed.

(** When neither the report nor [ldd] can be consulted, [isMusl]
    answers [true]; with a report, it answers by the glibc version. *)
Lemma isMusl_probe_failed (platform arch : string) :
  isMusl (mkProcess platform arch None None) = true.
Proof. reflexivity. Qed.

Lemma isMusl_report (platform arch : string) (ldd : option string)
    (version : string) :
  isMusl (mkProcess platform arch (Some (Some version)) ldd)
  = negb (JsString.truthy version).
Proof. reflexivity. Qed.

End Resolvers.

Section ResolverClaims.

Import JsString JsStringFacts.

(** C1: for every (platform, architecture) pair of the support table both
    resolvers return the entry the table holds for it (listed here in
    full, for either libc flavour), and two supported pairs never get the
    same identifier. *)
Theorem C1_supported_pairs_resolve_to_distinct_entries
    (p1 a1 p2 a2 : string) (m1 m2 : bool) :
  In (p1, a1) supported_pairs ->
  In (p2, a2) supported_pairs ->
  (exists id, table_entry m1 p1 a1 = Some id
              /\ TableDriven.resolve p1 a1 m1 = Ok id
              /\ NestedSwitch.resolve p1 a1 m1 = Ok id)
  /\ map (fun pa => TableDriven.resolve (fst pa) (snd pa) m1) supported_pairs =
       [ Ok "pinyin.android-arm64"; Ok "pinyin.android-arm-eabi";
         Ok "pinyin.win32-x64-msvc"; Ok "pinyin.win32-ia32-msvc";
         Ok "pinyin.win32-arm64-msvc";
         Ok "pinyin.darwin-x64"; Ok "pinyin.darwin-arm64";
         Ok "pinyin.freebsd-x64";
         Ok (if m1 then "pinyin.linux-x64-musl" else "pinyin.linux-x64-gnu");
         Ok (if m1 then "pinyin.linux-arm64-musl" else "pinyin.linux-arm64-gnu");
         Ok "pinyin.linux-arm-gnueabihf" ]
  /\ (TableDriven.resolve p1 a1 m1 = TableDriven.resolve p2 a2 m2 ->
      (p1, a1) = (p2, a2))
  /\ (NestedSwitch.resolve p1 a1 m1 = NestedSwitch.resolve p2 a2 m2 ->
      (p1, a1) = (p2, a2)).
Proof.
  intros H1 H2.
  assert (Hid : forall p a m, In (p, a) supported_pairs ->
            exists id, table_entry m p a = Some id
                       /\ TableDriven.resolve p a m = Ok id
                       /\ NestedSwitch.resolve p a m = Ok id).
  { intros p a m H. apply (supported_iff_entry p a m) in H as [id E].
    exists id. split; [exact E|]. split.
    - now apply table_resolve_entry.
    - pose proof (switch_resolve_entry p a m) as Hs. now rewrite E in Hs. }
  assert (Hinj : TableDriven.resolve p1 a1 m1 = TableDriven.resolve p2 a2 m2 ->
                 (p1, a1) = (p2, a2)).
  { split_in H1 supported_pairs_eq; split_in H2 supported_pairs_eq;
      destruct m1, m2; vm_compute; intros E; solve [reflexivity | discriminate E]. }
  split; [now apply Hid|]. split; [now destruct m1|]. split; [exact Hinj|].
  destruct (Hid p1 a1 m1 H1) as [i1 [_ [T1 S1]]].
  destruct (Hid p2 a2 m2 H2) as [i2 [_ [T2 S2]]].
  intros E. apply Hinj. congruence.
Qed.

Lemma C1_witness :
  In ("linux", "x64") supported_pairs
  /\ In ("win32", "x64") supported_pairs
  /\ (exists id, table_entry true "linux" "x64" = Some id
              /\ TableDriven.resolve "linux" "x64" true = Ok id
              /\ NestedSwitch.resolve "linux" "x64" true = Ok id)
  /\ (TableDriven.resolve "linux" "x64" true
      = TableDriven.resolve "win32" "x64" false ->
      ("linux", "x64") = ("win32", "x64")).
Proof.
  assert (H1 : In ("linux", "x64") supported_pairs) by (vm_compute; tauto).
  assert (H2 : In ("win32", "x64") supported_pairs) by (vm_compute; tauto).
  pose proof (C1_supported_pairs_resolve_to_distinct_entries
                "linux" "x64" "win32" "x64" true false H1 H2) as [A [_ [B _]]].
  split; [exact H1|]. split; [exact H2|]. split; [exact A | exact B].
Defined.

(** C3: when the table has no entry for the platform, or has one but no
    entry for the architecture under it, both resolvers throw an
    [UnsupportedError] whose message names the operating system (the
    table-driven one by [process.platform] itself, the nested switches by
    the label of the family) and the architecture. *)
Theorem C3_unsupported_pair_is_named_in_the_error
    (platform arch : string) (musl : bool) :
  (get (TableDriven.platformArchMap musl) platform = None
   \/ exists archMap,
        get (TableDriven.platformArchMap musl) platform = Some archMap
        /\ get archMap arch = None) ->
  (exists msg,
      TableDriven.resolve platform arch musl = Throw (UnsupportedError msg)
      /\ occurs_in platform msg /\ occurs_in arch msg)
  /\ (exists msg,
        NestedSwitch.resolve platform arch musl = Throw (UnsupportedError msg)
        /\ occurs_in (NestedSwitch.os_label platform) msg
        /\ occurs_in arch msg).
Proof.
  intros H. split.
  - destruct H as [Eos | [archMap [Eos Earch]]].
    + rewrite (table_resolve_unknown_os _ _ _ Eos). eexists. split; [reflexivity|].
      split; [apply occurs_in_middle|].
      do 2 apply occurs_in_app_r. apply occurs_in_end.
    + rewrite (table_resolve_unknown_arch _ _ _ _ Eos Earch).
      eexists. split; [reflexivity|].
      split; [apply occurs_in_middle|].
      apply occurs_in_app_r. apply occurs_in_app_r. apply occurs_in_end.
  - assert (E : table_entry musl platform arch = None).
    { unfold table_entry. destruct H as [-> | [archMap [-> Earch]]]; auto. }
    clear H. revert E.
    unfold table_entry, NestedSwitch.resolve, NestedSwitch.os_label,
      TableDriven.platformArchMap.
    cbn [get]. string_cases; cbn [get]; string_cases; intros _;
      (eexists; split; [reflexivity|]; split;
       [ first [ apply (occurs_in_middle "Unsupported architecture on " "Android")
               | apply (occurs_in_middle "Unsupported architecture on " "Windows")
               | apply (occurs_in_middle "Unsupported architecture on " "macOS")
               | apply (occurs_in_middle "Unsupported architecture on " "FreeBSD")
               | apply (occurs_in_middle "Unsupported architecture on " "Linux")
               | apply occurs_in_middle ]
       | first [ apply occurs_in_end
               | do 2 apply occurs_in_app_r; apply occurs_in_end ] ]).
Qed.

Lemma C3_witness :
  get (TableDriven.platformArchMap false) "sunos" = None
  /\ (exists msg,
      TableDriven.resolve "sunos" "x64" false = Throw (UnsupportedError msg)
      /\ occurs_in "sunos" msg /\ occurs_in "x64" msg)
  /\ (exists msg,
        NestedSwitch.resolve "sunos" "x64" false = Throw (UnsupportedError msg)
        /\ occurs_in (NestedSwitch.os_label "sunos") msg
        /\ occurs_in "x64" msg).
Proof.
  split; [reflexivity|].
  apply (C3_unsupported_pair_is_named_in_the_error "sunos" "x64" false).
  left. reflexivity.
Defined.

(** C4: on Linux x64 and Linux arm64 both resolvers return the name
    ending in [musl] when [isMusl()] is true and the name ending in [gnu]
    when it is false, and the two names of one architecture differ only
    in that suffix. *)
Theorem C4_linux_libc_suffix :
  (TableDriven.resolve "linux" "x64" true = Ok "pinyin.linux-x64-musl"
   /\ TableDriven.resolve "linux" "x64" false = Ok "pinyin.linux-x64-gnu"
   /\ TableDriven.resolve "linux" "arm64" true = Ok "pinyin.linux-arm64-musl"
   /\ TableDriven.resolve "linux" "arm64" false = Ok "pinyin.linux-arm64-gnu")
  /\ (NestedSwitch.resolve "linux" "x64" true = Ok "pinyin.linux-x64-musl"
      /\ NestedSwitch.resolve "linux" "x64" false = Ok "pinyin.linux-x64-gnu"
      /\ NestedSwitch.resolve "linux" "arm64" true = Ok "pinyin.linux-arm64-musl"
      /\ NestedSwitch.resolve "linux" "arm64" false = Ok "pinyin.linux-arm64-gnu")
  /\ (forall arch musl_id gnu_id,
        arch = "x64" \/ arch = "arm64" ->
        TableDriven.resolve "linux" arch true = Ok musl_id ->
        TableDriven.resolve "linux" arch false = Ok gnu_id ->
        differ_only_in_libc_suffix musl_id gnu_id
        /\ musl_id = "pinyin.linux-" ++ arch ++ "-musl"
        /\ gnu_id = "pinyin.linux-" ++ arch ++ "-gnu").
Proof.
  split; [repeat split|]. split; [repeat split|].
  intros arch musl_id gnu_id [-> | ->] Hm Hg;
    vm_compute in Hm, Hg; inversion Hm; inversion Hg; subst; clear Hm Hg;
    (split; [|split; reflexivity]).
  - exists "pinyin.linux-x64-". split; reflexivity.
  - exists "pinyin.linux-arm64-". split; reflexivity.
Qed.

Lemma C4_witness :
  TableDriven.resolve "linux" "arm64" true = Ok "pinyin.linux-arm64-musl"
  /\ TableDriven.resolve "linux" "arm64" false = Ok "pinyin.linux-arm64-gnu"
  /\ differ_only_in_libc_suffix "pinyin.linux-arm64-musl" "pinyin.linux-arm64-gnu".
Proof.
  destruct C4_linux_libc_suffix as [_ [_ H]].
  split; [reflexivity|]. split; [reflexivity|].
  apply (H "arm64" "pinyin.linux-arm64-musl" "pinyin.linux-arm64-gnu");
    [right; reflexivity | reflexivity | reflexivity].
Defined.

(** C9: on every input the resolver that reads the table and the
    resolver made of nested switches return the same name when either
    returns one, and one throws an [UnsupportedError] exactly when the
    other does. *)
Theorem C9_table_and_switch_resolvers_agree
    (platform arch : string) (musl : bool) :
  (forall id,
      TableDriven.resolve platform arch musl = Ok id <->
      NestedSwitch.resolve platform arch musl = Ok id)
  /\ (fails_with UnsupportedErrorClass (TableDriven.resolve platform arch musl) <->
      fails_with UnsupportedErrorClass (NestedSwitch.resolve platform arch musl))
  /\ ((exists id, TableDriven.resolve platform arch musl = Ok id)
      \/ fails_with UnsupportedErrorClass (TableDriven.resolve platform arch musl)).
Proof.
  pose proof (resolvers_agree platform arch musl) as H.
  unfold same_resolution, fails_with in *.
  destruct (TableDriven.resolve platform arch musl) as [i1|e1];
    destruct (NestedSwitch.resolve platform arch musl) as [i2|e2];
    try contradiction.
  - subst. split; [tauto|]. split; [|eauto].
    split; intros [m Hm]; discriminate.
  - destruct H as [H1 H2].
    destruct e1 as [[] m1|]; try discriminate.
    destruct e2 as [[] m2|]; try discriminate.
    split; [split; discriminate|]. split; [split; eauto|]. right; eauto.
Qed.

Lemma C9_witness :
  TableDriven.resolve "linux" "x64" true = Ok "pinyin.linux-x64-musl"
  /\ NestedSwitch.resolve "linux" "x64" true = Ok "pinyin.linux-x64-musl"
  /\ (fails_with UnsupportedErrorClass (TableDriven.resolve "aix" "ppc64" true) ->
      fails_with UnsupportedErrorClass (NestedSwitch.resolve "aix" "ppc64" true)).
Proof.
  split; [reflexivity|]. split.
  - apply (proj1 (C9_table_and_switch_resolvers_agree "linux" "x64" true)).
    reflexivity.
  - apply (proj1 (proj2 (C9_table_and_switch_resolvers_agree "aix" "ppc64" true))).
Defined.

(** C10: away from Linux x64 and Linux arm64 the value of [isMusl()]
    does not reach the result: two runs on the same platform and
    architecture that differ only in it return the same name or throw
    the same error, in both resolvers. *)
Theorem C10_libc_flavour_matters_only_on_linux_x64_arm64
    (platform arch : string) (musl1 musl2 : bool) :
  ~ libc_split platform arch ->
  TableDriven.resolve platform arch musl1 = TableDriven.resolve platform arch musl2
  /\ NestedSwitch.resolve platform arch musl1
     = NestedSwitch.resolve platform arch musl2.
Proof.
  unfold libc_split, TableDriven.resolve, NestedSwitch.resolve,
    TableDriven.platformArchMap.
  intros H. cbn [get].
  string_cases; cbn [get]; string_cases;
    try (split; reflexivity);
    exfalso; apply H; auto.
Qed.

Lemma C10_witness :
  ~ libc_split "linux" "arm"
  /\ TableDriven.resolve "linux" "arm" true = TableDriven.resolve "linux" "arm" false
  /\ NestedSwitch.resolve "linux" "arm" true = NestedSwitch.resolve "linux" "arm" false.
Proof.
  assert (H : ~ libc_split "linux" "arm").
  { intros [_ [E | E]]; discriminate E. }
  split; [exact H|].
  exact (C10_libc_flavour_matters_only_on_linux_x64_arm64 "linux" "arm" true false H).
Defined.

End ResolverClaims.

(** * Acquisition *)

Section Acquisition.

Import JsString JsStringFacts.

Variable env : Env.

(** When the file is there, [bindNative] only loads it. *)
Lemma bindNative_present (acquire : string -> string -> M unit)
    (platform arch nodeDir nodeName : string) (fs : Files) :
  on_disk fs (nodePath nodeDir nodeName) = true ->
  bindNative env acquire platform arch nodeDir nodeName fs =
    match load env (nodePath nodeDir nodeName) with
    | None =>
        (Ok (LoadedFrom (nodePath nodeDir nodeName)), fs,
         [Require (nodePath nodeDir nodeName)])
    | Some e =>
        (Throw (if instanceof_DownloadError e then e
                else Error ("Failed to use " ++ nodePath nodeDir nodeName
                            ++ " on " ++ platform ++ "-" ++ arch)),
         fs,
         [Require (nodePath nodeDir nodeName);
          LogError "在处理二进制文件时遇到了错误" e])
    end.
Proof.
  intros H. unfold nodePath in *. run_monad. rewrite H. cbn.
  rewrite H.
  destruct (load env _) as [e|]; cbn; [|reflexivity].
  destruct (instanceof_DownloadError e); reflexivity.
Qed.

Lemma bindNative_skips (acquire : string -> string -> M unit)
    (platform arch nodeDir nodeName : string) (fs : Files) :
  on_disk fs (nodePath nodeDir nodeName) = true ->
  skips_acquisition (nodePath nodeDir nodeName) fs
    (bindNative env acquire platform arch nodeDir nodeName fs).
Proof.
  intros H. rewrite (bindNative_present _ _ _ _ _ _ H).
  unfold skips_acquisition.
  destruct (load env _); repeat split.
Qed.

(** [bindNative] returns a module only when the file it loaded is on
    disk at the end. *)
Lemma bindNative_ok (acquire : string -> string -> M unit)
    (platform arch nodeDir nodeName : string)
    (fs fs1 : Files) (b : NativeBinding) (evs : list event) :
  bindNative env acquire platform arch nodeDir nodeName fs = (Ok b, fs1, evs) ->
  on_disk fs1 (nodePath nodeDir nodeName) = true.
Proof.
  unfold nodePath. run_monad.
  set (path := Path.join3 nodeDir "package" (nodeName ++ ".node")).
  destruct (on_disk fs path) eqn:Hfs; cbn.
  - rewrite Hfs. destruct (load env path) as [e|]; cbn.
    + destruct (instanceof_DownloadError e); discriminate.
    + intros E; inversion E; subst; exact Hfs.
  - destruct (acquire nodeDir nodeName fs) as [[[[]|e] fs'] evs']; cbn.
    + destruct (on_disk fs' path) eqn:Hfs'; cbn.
      * destruct (load env path) as [e|]; cbn.
        -- destruct (instanceof_DownloadError e); discriminate.
        -- intros E; inversion E; subst; exact Hfs'.
      * discriminate.
    + destruct (instanceof_DownloadError e); discriminate.
Qed.


(** A body that came back as text has no [dist] to read [tarball]
    from. *)
Lemma read_tarball_text_body (body : string) :
  read_tarball (JString body) = Throw (cannot_read "undefined" "tarball").
Proof. reflexivity. Qed.

(** The [try] around the registry request: whatever is thrown inside
    it, by [http.get] or by the reads of [res.dist.tarball], is logged
    with the address and rethrown as a [DownloadError] that carries the
    message of the cause. *)
Lemma handleFile_fetch_failure (nodeDir nodeName : string) (fs : Files)
    (cause : thrown) :
  (http_get env (metadata_url nodeName) = Throw cause
   \/ exists res, http_get env (metadata_url nodeName) = Ok res
                  /\ read_tarball res = Throw cause) ->
  handleFile env nodeDir nodeName fs =
    (Throw (DownloadError ("Failed to fetch from URL: " ++ message_text cause)),
     fs,
     [HttpGet (metadata_url nodeName);
      LogError ("Failed to fetch from URL: " ++ metadata_url nodeName) cause]).
Proof.
  intros [H | [res [H Hr]]]; run_monad; rewrite H; cbn; [reflexivity|].
  rewrite Hr. reflexivity.
Qed.

(** The guard after it: a response whose [dist] has no usable [tarball]
    ends in the [DownloadError] that names the address. *)
Lemma handleFile_no_tarball (nodeDir nodeName : string) (fs : Files)
    (res tarball : jsval) :
  http_get env (metadata_url nodeName) = Ok res ->
  read_tarball res = Ok tarball ->
  js_truthy tarball = false ->
  handleFile env nodeDir nodeName fs =
    (Throw (DownloadError
              ("Failed to get the binary url from " ++ metadata_url nodeName)),
     fs,
     [HttpGet (metadata_url nodeName);
      LogInfo ("Stating download from " ++ js_text tarball)]).
Proof.
  intros H Hr Ht. run_monad. rewrite H. cbn. rewrite Hr. cbn.
  rewrite Ht. reflexivity.
Qed.

(** A report whose status is not COMPLETE: the [DownloadError] thrown in
    the [else] branch is caught by the [catch] below it and wrapped. *)
Lemma handleFile_not_complete (nodeDir nodeName : string) (fs : Files)
    (res tarball : jsval) (r : DownloaderReport) :
  http_get env (metadata_url nodeName) = Ok res ->
  read_tarball res = Ok tarball ->
  js_truthy tarball = true ->
  download env tarball nodeDir = Ok r ->
  downloadStatus r <> "COMPLETE" ->
  handleFile env nodeDir nodeName fs =
    (Throw (DownloadError
              "Failed to download the binary file: Download was aborted"),
     match filePath r with Some p => p :: fs | None => fs end,
     [HttpGet (metadata_url nodeName);
      LogInfo ("Stating download from " ++ js_text tarball);
      Download tarball nodeDir;
      LogError "Failed to download the file"
               (DownloadError "Download was aborted")]).
Proof.
  intros H Hr Ht Hd Hs. apply String.eqb_neq in Hs.
  run_monad. rewrite H. cbn. rewrite Hr. cbn. rewrite Ht. cbn.
  rewrite Hd. cbn.
  destruct (filePath r) as [p|]; cbn; rewrite Hs; reflexivity.
Qed.

(** A failed extraction: the string [extract] rejects with reaches the
    log, and the [DownloadError] is built from its [message] property,
    which a string does not have. *)
Lemma handleFile_extract_failure (nodeDir nodeName : string) (fs : Files)
    (res tarball : jsval) (r : DownloaderReport) (p reason : string) :
  http_get env (metadata_url nodeName) = Ok res ->
  read_tarball res = Ok tarball ->
  js_truthy tarball = true ->
  download env tarball nodeDir = Ok r ->
  downloadStatus r = "COMPLETE" ->
  filePath r = Some p ->
  rejection (ending (unpack env p)) = Some reason ->
  handleFile env nodeDir nodeName fs =
    (Throw (DownloadError "Failed to download the binary file: undefined"),
     List.app
       (map (fun member => Path.dirname p ++ "/" ++ member) (written (unpack env p)))
       (p :: fs),
     [HttpGet (metadata_url nodeName);
      LogInfo ("Stating download from " ++ js_text tarball);
      Download tarball nodeDir;
      Extract p;
      LogError "Failed to download the file" (StringValue reason)]).
Proof.
  intros H Hr Ht Hd Hs Hp Hu.
  run_monad. unfold resolve_reported, Path.resolve.
  repeat (rewrite ?H, ?Hr, ?Ht, ?Hd, ?Hp, ?Hs; cbn).
  destruct (ending (unpack env p)); unfold rejection in Hu;
    [discriminate Hu | injection Hu as <- ..]; reflexivity.
Qed.

(** A complete download and a finished extraction: the archive and its
    members are on disk, under the directory of the archive. *)
Lemma handleFile_success (nodeDir nodeName : string) (fs : Files)
    (res tarball : jsval) (r : DownloaderReport) (p : string) :
  http_get env (metadata_url nodeName) = Ok res ->
  read_tarball res = Ok tarball ->
  js_truthy tarball = true ->
  download env tarball nodeDir = Ok r ->
  downloadStatus r = "COMPLETE" ->
  filePath r = Some p ->
  ending (unpack env p) = Finished ->
  handleFile env nodeDir nodeName fs =
    (Ok tt,
     List.app
       (map (fun member => Path.dirname p ++ "/" ++ member) (written (unpack env p)))
       (p :: fs),
     [HttpGet (metadata_url nodeName);
      LogInfo ("Stating download from " ++ js_text tarball);
      Download tarball nodeDir;
      Extract p;
      LogSuccess ("File downloaded successfully at " ++ p)]).
Proof.
  intros H Hr Ht Hd Hs Hp Hu.
  run_monad. unfold resolve_reported, Path.resolve.
  repeat (rewrite ?H, ?Hr, ?Ht, ?Hd, ?Hp, ?Hs, ?Hu; cbn).
  reflexivity.
Qed.

Lemma before_last_separator_join (dir name : string) :
  Path.before_last_separator name = None ->
  Path.before_last_separator (dir ++ "/" ++ name) = Some dir.
Proof.
  intros Hname. induction dir as [|c dir IH]; cbn.
  - now rewrite Hname.
  - cbn in IH. now rewrite IH.
Qed.

(** [path.dirname] of a file directly under [dir] is [dir]. *)
Lemma dirname_join (dir name : string) :
  dir <> EmptyString ->
  Path.before_last_separator name = None ->
  Path.dirname (dir ++ "/" ++ name) = dir.
Proof.
  intros Hdir Hname. unfold Path.dirname.
  rewrite (before_last_separator_join dir name Hname).
  destruct dir; [contradiction | reflexivity].
Qed.

Lemma on_disk_In (fs : Files) (p : string) : In p fs -> on_disk fs p = true.
Proof.
  intros H. unfold on_disk. apply existsb_exists.
  exists p. split; [exact H | apply String.eqb_refl].
Qed.

(** The archive of the package holds [package/<nodeName>.node]; saved
    directly under [nodeDir] and unpacked there, it leaves the binary
    where [getNativeBinding] looks for it. *)
Lemma handleFile_leaves_binary (nodeDir nodeName fileName : string) (fs : Files)
    (res tarball : jsval) (r : DownloaderReport) :
  http_get env (metadata_url nodeName) = Ok res ->
  read_tarball res = Ok tarball ->
  js_truthy tarball = true ->
  download env tarball nodeDir = Ok r ->
  downloadStatus r = "COMPLETE" ->
  filePath r = Some (nodeDir ++ "/" ++ fileName) ->
  nodeDir <> EmptyString ->
  Path.before_last_separator fileName = None ->
  ending (unpack env (nodeDir ++ "/" ++ fileName)) = Finished ->
  In ("package/" ++ nodeName ++ ".node")
     (written (unpack env (nodeDir ++ "/" ++ fileName))) ->
  result_of (handleFile env nodeDir nodeName fs) = Ok tt
  /\ on_disk (files_of (handleFile env nodeDir nodeName fs))
             (nodePath nodeDir nodeName) = true.
Proof.
  intros H Hr Ht Hd Hs Hp Hdir Hname Hu Hin.
  rewrite (handleFile_success nodeDir nodeName fs res tarball r _ H Hr Ht Hd Hs Hp Hu).
  split; [reflexivity|].
  unfold files_of. cbn [fst snd].
  apply on_disk_In. apply in_or_app. left.
  rewrite (dirname_join nodeDir fileName Hdir Hname).
  apply in_map_iff. exists ("package/" ++ nodeName ++ ".node").
  split; [reflexivity | exact Hin].
Qed.






End Acquisition.

Section AcquisitionClaims.

Import JsString JsStringFacts.

(** C2: when the file [<nodeDir>/package/<nodeName>.node] is on disk,
    [getNativeBinding] (either version) goes straight to [require]: no
    registry request, no download, no extraction, no file written.
    Hence a call that follows a call which returned the loaded module
    makes no network request, and neither does a call that follows a
    [handleFile] which returned with the file in place. *)
Theorem C2_present_binary_skips_acquisition
    (env env' : Env) (handleFile3 : string -> string -> M unit)
    (proc : Process) (nodeDir nodeName : string) (fs : Files) :
  TableDriven.resolve (platform proc) (arch proc) (isMusl proc) = Ok nodeName ->
  (on_disk fs (nodePath nodeDir nodeName) = true ->
   skips_acquisition (nodePath nodeDir nodeName) fs
     (TableDriven.getNativeBinding env proc nodeDir fs)
   /\ skips_acquisition (nodePath nodeDir nodeName) fs
        (NestedSwitch.getNativeBinding env handleFile3 proc nodeDir fs))
  /\ (forall b fs1 evs1,
        TableDriven.getNativeBinding env proc nodeDir fs = (Ok b, fs1, evs1) ->
        on_disk fs1 (nodePath nodeDir nodeName) = true
        /\ skips_acquisition (nodePath nodeDir nodeName) fs1
             (TableDriven.getNativeBinding env' proc nodeDir fs1))
  /\ (forall b fs1 evs1,
        NestedSwitch.getNativeBinding env handleFile3 proc nodeDir fs
          = (Ok b, fs1, evs1) ->
        on_disk fs1 (nodePath nodeDir nodeName) = true
        /\ skips_acquisition (nodePath nodeDir nodeName) fs1
             (NestedSwitch.getNativeBinding env' handleFile3 proc nodeDir fs1))
  /\ (forall res tarball r fileName,
        http_get env (metadata_url nodeName) = Ok res ->
        read_tarball res = Ok tarball ->
        js_truthy tarball = true ->
        download env tarball nodeDir = Ok r ->
        downloadStatus r = "COMPLETE" ->
        filePath r = Some (nodeDir ++ "/" ++ fileName) ->
        nodeDir <> EmptyString ->
        Path.before_last_separator fileName = None ->
        ending (unpack env (nodeDir ++ "/" ++ fileName)) = Finished ->
        In ("package/" ++ nodeName ++ ".node")
           (written (unpack env (nodeDir ++ "/" ++ fileName))) ->
        result_of (handleFile env nodeDir nodeName fs) = Ok tt
        /\ skips_acquisition (nodePath nodeDir nodeName)
             (files_of (handleFile env nodeDir nodeName fs))
             (TableDriven.getNativeBinding env' proc nodeDir
                (files_of (handleFile env nodeDir nodeName fs)))).
Proof.
  intros HT.
  assert (HS : NestedSwitch.resolve (platform proc) (arch proc) (isMusl proc)
               = Ok nodeName).
  { pose proof (resolvers_agree (platform proc) (arch proc) (isMusl proc)) as A.
    rewrite HT in A. unfold same_resolution in A.
    destruct (NestedSwitch.resolve _ _ _); [now subst | contradiction]. }
  assert (ET : forall e f,
             TableDriven.getNativeBinding e proc nodeDir f =
             bindNative e (handleFile e) (platform proc) (arch proc)
                        nodeDir nodeName f).
  { intros e f. unfold TableDriven.getNativeBinding, bind, lift. rewrite HT.
    destruct (bindNative _ _ _ _ _ _ f) as [[r f'] evs]. reflexivity. }
  assert (ES : forall e f,
             NestedSwitch.getNativeBinding e handleFile3 proc nodeDir f =
             bindNative e handleFile3 (platform proc) (arch proc)
                        nodeDir nodeName f).
  { intros e f. unfold NestedSwitch.getNativeBinding, bind, lift. rewrite HS.
    destruct (bindNative _ _ _ _ _ _ f) as [[r f'] evs]. reflexivity. }
  split; [|split; [|split]].
  - intros Hfs. rewrite ET, ES. split; now apply bindNative_skips.
  - intros b fs1 evs1 Hrun. rewrite ET in Hrun.
    apply bindNative_ok in Hrun. split; [exact Hrun|].
    rewrite ET. now apply bindNative_skips.
  - intros b fs1 evs1 Hrun. rewrite ES in Hrun.
    apply bindNative_ok in Hrun. split; [exact Hrun|].
    rewrite ES. now apply bindNative_skips.
  - intros res tarball r fileName H Hr Ht Hd Hs Hp Hdir Hname Hu Hin.
    destruct (handleFile_leaves_binary env nodeDir nodeName fileName fs
                res tarball r H Hr Ht Hd Hs Hp Hdir Hname Hu Hin) as [Hok Hfs1].
    split; [exact Hok|]. rewrite ET. now apply bindNative_skips.
Qed.

Lemma C2_witness :
  TableDriven.resolve (platform Scenario.linux_x64) (arch Scenario.linux_x64)
                      (isMusl Scenario.linux_x64) = Ok Scenario.nodeName
  /\ on_disk [Scenario.binary] (nodePath Scenario.nodeDir Scenario.nodeName) = true
  /\ skips_acquisition Scenario.binary [Scenario.binary]
       (TableDriven.getNativeBinding Scenario.refused Scenario.linux_x64
          Scenario.nodeDir [Scenario.binary])
  /\ result_of (TableDriven.getNativeBinding Scenario.healthy Scenario.linux_x64
                  Scenario.nodeDir [])
     = Ok (LoadedFrom Scenario.binary)
  /\ network_requests
       (events_of
          (TableDriven.getNativeBinding Scenario.refused Scenario.linux_x64
             Scenario.nodeDir
             (files_of (TableDriven.getNativeBinding Scenario.healthy
                          Scenario.linux_x64 Scenario.nodeDir []))))
     = [].
Proof.
  assert (R : TableDriven.resolve (platform Scenario.linux_x64)
                (arch Scenario.linux_x64) (isMusl Scenario.linux_x64)
              = Ok Scenario.nodeName) by reflexivity.
  split; [exact R|]. split; [reflexivity|]. split; [|split; [reflexivity|]].
  - apply (C2_present_binary_skips_acquisition
             Scenario.refused Scenario.refused (handleFile Scenario.refused)
             Scenario.linux_x64 Scenario.nodeDir Scenario.nodeName
             [Scenario.binary] R).
    reflexivity.
  - destruct (C2_present_binary_skips_acquisition
                Scenario.healthy Scenario.refused (handleFile Scenario.healthy)
                Scenario.linux_x64 Scenario.nodeDir Scenario.nodeName [] R)
      as [_ [Again _]].
    assert (E : TableDriven.getNativeBinding Scenario.healthy Scenario.linux_x64
                  Scenario.nodeDir []
                = (Ok (LoadedFrom Scenario.binary),
                   files_of (TableDriven.getNativeBinding Scenario.healthy
                               Scenario.linux_x64 Scenario.nodeDir []),
                   events_of (TableDriven.getNativeBinding Scenario.healthy
                                Scenario.linux_x64 Scenario.nodeDir [])))
      by (vm_compute; reflexivity).
    destruct (Again _ _ _ E) as [_ [_ [N _]]].
    exact N.
Defined.

(** C5, as the code has it: whatever makes the registry request fail -
    [http.get] throwing (no connection, a status other than 200) or the
    answer not being an object with a [dist] (a body that is not JSON) -
    [handleFile] logs the address of the request together with the cause
    and throws a [DownloadError] whose message is the fixed text
    [Failed to fetch from URL: ] followed by the message of the cause;
    nothing is downloaded and nothing is written. *)
Theorem C5_fetch_failure_logs_url_and_wraps_cause
    (env : Env) (nodeDir nodeName : string) (fs : Files) (cause : thrown) :
  (http_get env (metadata_url nodeName) = Throw cause
   \/ exists res, http_get env (metadata_url nodeName) = Ok res
                  /\ read_tarball res = Throw cause) ->
  result_of (handleFile env nodeDir nodeName fs)
    = Throw (DownloadError ("Failed to fetch from URL: " ++ message_text cause))
  /\ events_of (handleFile env nodeDir nodeName fs)
     = [HttpGet (metadata_url nodeName);
        LogError ("Failed to fetch from URL: " ++ metadata_url nodeName) cause]
  /\ occurs_in (metadata_url nodeName)
               ("Failed to fetch from URL: " ++ metadata_url nodeName)
  /\ files_of (handleFile env nodeDir nodeName fs) = fs.
Proof.
  intros H. rewrite (handleFile_fetch_failure env nodeDir nodeName fs cause H).
  repeat split. apply occurs_in_end.
Qed.

Lemma C5_witness :
  http_get Scenario.refused (metadata_url Scenario.nodeName)
    = Throw (Error "connect ECONNREFUSED 104.16.27.34:443")
  /\ result_of (handleFile Scenario.refused Scenario.nodeDir Scenario.nodeName [])
     = Throw (DownloadError
                "Failed to fetch from URL: connect ECONNREFUSED 104.16.27.34:443").
Proof.
  split; [reflexivity|].
  apply (C5_fetch_failure_logs_url_and_wraps_cause
           Scenario.refused Scenario.nodeDir Scenario.nodeName []
           (Error "connect ECONNREFUSED 104.16.27.34:443")).
  left. reflexivity.
Defined.

(** C5 as stated fails: with the registry unreachable the message of the
    [DownloadError] holds the message of the network error and not the
    address that was requested. *)
Lemma C5_counterexample :
  http_get Scenario.refused (metadata_url Scenario.nodeName)
    = Throw (Error "connect ECONNREFUSED 104.16.27.34:443")
  /\ exists msg,
       result_of (handleFile Scenario.refused Scenario.nodeDir Scenario.nodeName [])
         = Throw (DownloadError msg)
       /\ ~ occurs_in (metadata_url Scenario.nodeName) msg.
Proof.
  split; [reflexivity|].
  exists "Failed to fetch from URL: connect ECONNREFUSED 104.16.27.34:443".
  split; [reflexivity|].
  apply includes_false. vm_compute. reflexivity.
Qed.

(** C6 fails on the code: [extract] rejects with a string that names the
    stage, [handleFile] reads the [message] property of what it caught,
    and a string has none - an unreadable archive, a corrupt gzip stream
    and a corrupt tar archive all end in the same [DownloadError]
    message.  Only the log keeps the three apart. *)
Theorem C6_extraction_failures_share_one_message :
  let run env := handleFile env Scenario.nodeDir Scenario.nodeName [] in
  result_of (run Scenario.unreadable)
    = Throw (DownloadError "Failed to download the binary file: undefined")
  /\ result_of (run Scenario.corrupt_gzip)
     = Throw (DownloadError "Failed to download the binary file: undefined")
  /\ result_of (run Scenario.corrupt_tar)
     = Throw (DownloadError "Failed to download the binary file: undefined")
  /\ In (LogError "Failed to download the file"
           (StringValue "An error occurred while reading the file: Error: EIO: i/o error, read"))
        (events_of (run Scenario.unreadable))
  /\ In (LogError "Failed to download the file"
           (StringValue "An error occurred while gunzipping the file: Error: incorrect header check"))
        (events_of (run Scenario.corrupt_gzip))
  /\ In (LogError "Failed to download the file"
           (StringValue "An error occurred during extraction: Error: TAR_BAD_ARCHIVE: Unrecognized archive format"))
        (events_of (run Scenario.corrupt_tar)).
Proof.
  cbv zeta. repeat split; vm_compute; tauto.
Qed.

(** C7 fails on the code when the answer has no [dist] at all: reading
    [tarball] from [undefined] throws inside the [try] of the request, so
    the [DownloadError] is the one of a failed request and its message is
    the engine's, without the address.  (It is still a [DownloadError].) *)
Theorem C7_answer_without_dist_does_not_name_the_url :
  http_get Scenario.empty_body (metadata_url Scenario.nodeName) = Ok (JObject [])
  /\ result_of (handleFile Scenario.empty_body Scenario.nodeDir Scenario.nodeName [])
     = Throw (DownloadError
                "Failed to fetch from URL: Cannot read properties of undefined (reading 'tarball')")
  /\ ~ occurs_in (metadata_url Scenario.nodeName)
        "Failed to fetch from URL: Cannot read properties of undefined (reading 'tarball')".
Proof.
  split; [reflexivity|]. split; [reflexivity|].
  apply includes_false. vm_compute. reflexivity.
Qed.

(** C8: when the report of the download has a status other than
    COMPLETE, [handleFile] throws a [DownloadError] and [extract] is not
    called. *)
Theorem C8_incomplete_download_is_a_DownloadError
    (env : Env) (nodeDir nodeName : string) (fs : Files)
    (res tarball : jsval) (r : DownloaderReport) :
  http_get env (metadata_url nodeName) = Ok res ->
  read_tarball res = Ok tarball ->
  js_truthy tarball = true ->
  download env tarball nodeDir = Ok r ->
  downloadStatus r <> "COMPLETE" ->
  fails_with DownloadErrorClass (result_of (handleFile env nodeDir nodeName fs))
  /\ result_of (handleFile env nodeDir nodeName fs)
     = Throw (DownloadError
                "Failed to download the binary file: Download was aborted")
  /\ filter is_extract (events_of (handleFile env nodeDir nodeName fs)) = [].
Proof.
  intros H Hr Ht Hd Hs.
  rewrite (handleFile_not_complete env nodeDir nodeName fs res tarball r
             H Hr Ht Hd Hs).
  split; [now eexists|]. split; reflexivity.
Qed.

Lemma C8_witness :
  downloadStatus (mkReport None "ABORTED") <> "COMPLETE"
  /\ result_of (handleFile Scenario.interrupted Scenario.nodeDir Scenario.nodeName [])
     = Throw (DownloadError
                "Failed to download the binary file: Download was aborted")
  /\ filter is_extract
       (events_of (handleFile Scenario.interrupted Scenario.nodeDir
                     Scenario.nodeName []))
     = [].
Proof.
  assert (Hs : downloadStatus (mkReport None "ABORTED") <> "COMPLETE")
    by (cbn; discriminate).
  split; [exact Hs|].
  apply (C8_incomplete_download_is_a_DownloadError
           Scenario.interrupted Scenario.nodeDir Scenario.nodeName []
           Scenario.metadata
           (JString "https://registry.npmjs.org/@napi-rs/pinyin-linux-x64-gnu/-/pinyin-linux-x64-gnu-1.7.5.tgz")
           (mkReport None "ABORTED")
           eq_refl eq_refl eq_refl eq_refl Hs).
Defined.

End AcquisitionClaims.

(** * The rest of the code *)

Section HandleFileRuns.

Import JsString JsStringFacts.

Variable env : Env.

(** Every run of [handleFile], spelled out: the result, the files and the
    events for each way the registry, the downloader and the streams can
    answer. *)
Lemma handleFile_run (nodeDir nodeName : string) (fs : Files) :
  handleFile env nodeDir nodeName fs =
  let url := metadata_url nodeName in
  let fetch_failed cause :=
    (Throw (DownloadError ("Failed to fetch from URL: " ++ message_text cause)),
     fs,
     [HttpGet url; LogError ("Failed to fetch from URL: " ++ url) cause]) in
  match http_get env url with
  | Throw cause => fetch_failed cause
  | Ok res =>
      match read_tarball res with
      | Throw cause => fetch_failed cause
      | Ok tarball =>
          let started :=
            [HttpGet url; LogInfo ("Stating download from " ++ js_text tarball)] in
          let download_failed fs1 evs cause :=
            (Throw (DownloadError
                      ("Failed to download the binary file: " ++ message_text cause)),
             fs1,
             List.app started
               (Download tarball nodeDir
                  :: List.app evs [LogError "Failed to download the file" cause])) in
          if js_truthy tarball then
            match download env tarball nodeDir with
            | Throw cause => download_failed fs [] cause
            | Ok r =>
                match filePath r with
                | None =>
                    if downloadStatus r =? "COMPLETE" then
                      download_failed fs []
                        (TypeError
                           ("The " ++ dquote ++ "paths[0]" ++ dquote
                            ++ " argument must be of type string. Received null"))
                    else download_failed fs [] (DownloadError "Download was aborted")
                | Some p =>
                    if downloadStatus r =? "COMPLETE" then
                      let fs1 :=
                        List.app
                          (map (fun member => Path.dirname p ++ "/" ++ member)
                               (written (unpack env p)))
                          (p :: fs) in
                      match rejection (ending (unpack env p)) with
                      | Some reason =>
                          download_failed fs1 [Extract p] (StringValue reason)
                      | None =>
                          (Ok tt, fs1,
                           List.app started
                             [Download tarball nodeDir; Extract p;
                              LogSuccess ("File downloaded successfully at " ++ p)])
                      end
                    else
                      download_failed (p :: fs) []
                        (DownloadError "Download was aborted")
                end
            end
          else
            (Throw (DownloadError ("Failed to get the binary url from " ++ url)),
             fs, started)
      end
  end.
Proof.
  cbv zeta. run_monad. unfold resolve_reported, Path.resolve.
  destruct (http_get env (metadata_url nodeName)) as [res|c]; cbn; [|reflexivity].
  destruct (read_tarball res) as [tarball|c]; cbn; [|reflexivity].
  destruct (js_truthy tarball); cbn; [|reflexivity].
  destruct (download env tarball nodeDir) as [r|c]; cbn; [|reflexivity].
  destruct (filePath r) as [p|] eqn:Hp; cbn;
    (destruct (downloadStatus r =? "COMPLETE"); cbn; [|reflexivity]).
  - rewrite ?Hp; cbn. destruct (ending (unpack env p)); cbn; rewrite ?Hp; reflexivity.
  - rewrite ?Hp; reflexivity.
Qed.


(** X2: one call of [handleFile] starts with the registry request and
    makes at most one more request, the download of the address the
    registry gave; nothing is asked twice. *)
Theorem handleFile_asks_the_network_at_most_twice
    (nodeDir nodeName : string) (fs : Files) :
  hd_error (events_of (handleFile env nodeDir nodeName fs))
    = Some (HttpGet (metadata_url nodeName))
  /\ (network_requests (events_of (handleFile env nodeDir nodeName fs))
        = [HttpGet (metadata_url nodeName)]
      \/ exists res tarball,
           http_get env (metadata_url nodeName) = Ok res
           /\ read_tarball res = Ok tarball
           /\ js_truthy tarball = true
           /\ network_requests (events_of (handleFile env nodeDir nodeName fs))
              = [HttpGet (metadata_url nodeName); Download tarball nodeDir]).
Proof.
  rewrite handleFile_run. cbv zeta.
  destruct (http_get env (metadata_url nodeName)) as [res|c]; [|split; [|left]; reflexivity].
  destruct (read_tarball res) as [tarball|c] eqn:Hr; [|split; [|left]; reflexivity].
  destruct (js_truthy tarball) eqn:Ht; [|split; [|left]; reflexivity].
  assert (R : forall run : Result unit * Files * list event,
             network_requests (events_of run)
               = [HttpGet (metadata_url nodeName); Download tarball nodeDir] ->
             network_requests (events_of run) = [HttpGet (metadata_url nodeName)]
             \/ exists res0 tarball0,
                  Ok res = Ok res0 /\ read_tarball res0 = Ok tarball0
                  /\ js_truthy tarball0 = true
                  /\ network_requests (events_of run)
                     = [HttpGet (metadata_url nodeName); Download tarball0 nodeDir]).
  { intros run H. right. exists res, tarball. auto. }
  destruct (download env tarball nodeDir) as [r|c];
    [|split; [|apply R]; reflexivity].
  destruct (filePath r) as [p|];
    (destruct (downloadStatus r =? "COMPLETE"); [|split; [|apply R]; reflexivity]).
  - destruct (rejection (ending (unpack env p))); split; try apply R; reflexivity.
  - split; [|apply R]; reflexivity.
Qed.

(** X3: [extract] is called only on the file of a download that
    reported COMPLETE, after the registry gave a usable address. *)
Theorem extraction_follows_a_complete_download
    (nodeDir nodeName : string) (fs : Files) (p : string) :
  In (Extract p) (events_of (handleFile env nodeDir nodeName fs)) ->
  exists res tarball r,
    http_get env (metadata_url nodeName) = Ok res
    /\ read_tarball res = Ok tarball
    /\ js_truthy tarball = true
    /\ download env tarball nodeDir = Ok r
    /\ downloadStatus r = "COMPLETE"
    /\ filePath r = Some p.
Proof.
  rewrite handleFile_run. cbv zeta.
  assert (N : forall q (e : event),
             is_extract e = false -> Extract q = e -> False).
  { intros q e He <-. discriminate He. }
  destruct (http_get env (metadata_url nodeName)) as [res|c];
    [|cbn; intros [H|[H|[]]]; discriminate H].
  destruct (read_tarball res) as [tarball|c] eqn:Hr;
    [|cbn; intros [H|[H|[]]]; discriminate H].
  destruct (js_truthy tarball) eqn:Ht;
    [|cbn; intros [H|[H|[]]]; discriminate H].
  destruct (download env tarball nodeDir) as [r|c] eqn:Hd;
    [|cbn; intros [H|[H|[H|[H|[]]]]]; discriminate H].
  destruct (filePath r) as [q|] eqn:Hp;
    (destruct (String.eqb_spec (downloadStatus r) "COMPLETE") as [Hs|Hs];
     [|cbn; intros [H|[H|[H|[H|[]]]]]; discriminate H]).
  - intros H.
    assert (E : p = q).
    { destruct (rejection (ending (unpack env q))); cbn in H;
        destruct H as [H|[H|[H|[H|[H|[]]]]]]; try discriminate H;
        now inversion H. }
    subst q. exists res, tarball, r. auto 10.
  - cbn; intros [H|[H|[H|[H|[]]]]]; discriminate H.
Qed.

End HandleFileRuns.

Lemma extraction_follows_a_complete_download_witness :
  In (Extract Scenario.archive)
     (events_of (handleFile Scenario.healthy Scenario.nodeDir Scenario.nodeName []))
  /\ exists res tarball r,
       http_get Scenario.healthy (metadata_url Scenario.nodeName) = Ok res
       /\ read_tarball res = Ok tarball
       /\ js_truthy tarball = true
       /\ download Scenario.healthy tarball Scenario.nodeDir = Ok r
       /\ downloadStatus r = "COMPLETE"
       /\ filePath r = Some Scenario.archive.
Proof.
  assert (H : In (Extract Scenario.archive)
                (events_of (handleFile Scenario.healthy Scenario.nodeDir
                              Scenario.nodeName [])))
    by (vm_compute; tauto).
  split; [exact H|].
  exact (extraction_follows_a_complete_download Scenario.healthy _ _ _ _ H).
Defined.

Section HandleFileOutcomes.

Import JsString JsStringFacts.

(** X4: [handleFile] returns exactly when every stage went through: the
    registry gave a usable address, the download reported COMPLETE with
    a file, and the streams finished.  The archive is then still on disk,
    beside what was unpacked from it. *)
Theorem handleFile_returns_iff_every_stage_succeeded
    (env : Env) (nodeDir nodeName : string) (fs : Files) :
  result_of (handleFile env nodeDir nodeName fs) = Ok tt <->
  exists res tarball r p,
    http_get env (metadata_url nodeName) = Ok res
    /\ read_tarball res = Ok tarball
    /\ js_truthy tarball = true
    /\ download env tarball nodeDir = Ok r
    /\ downloadStatus r = "COMPLETE"
    /\ filePath r = Some p
    /\ ending (unpack env p) = Finished
    /\ files_of (handleFile env nodeDir nodeName fs)
       = List.app (map (fun member => Path.dirname p ++ "/" ++ member)
                       (written (unpack env p)))
                  (p :: fs).
Proof.
  split.
  - rewrite handleFile_run. cbv zeta.
    destruct (http_get env (metadata_url nodeName)) as [res|c]; [|discriminate].
    destruct (read_tarball res) as [tarball|c] eqn:Hr; [|discriminate].
    destruct (js_truthy tarball) eqn:Ht; [|discriminate].
    destruct (download env tarball nodeDir) as [r|c] eqn:Hd; [|discriminate].
    destruct (filePath r) as [p|] eqn:Hp;
      (destruct (String.eqb_spec (downloadStatus r) "COMPLETE") as [Hs|Hs];
       [|discriminate]); [|discriminate].
    destruct (ending (unpack env p)) eqn:Hu; try discriminate.
    intros _. exists res, tarball, r, p. cbn. auto 10.
  - intros [res [tarball [r [p [H [Hr [Ht [Hd [Hs [Hp [Hu _]]]]]]]]]]].
    now rewrite (handleFile_success env nodeDir nodeName fs res tarball r p).
Qed.

(** X5: when the download itself is rejected, [handleFile] throws a
    [DownloadError] that carries the message of the cause, logs the
    cause, unpacks nothing and leaves the disk as it was. *)
Theorem rejected_download_is_wrapped
    (env : Env) (nodeDir nodeName : string) (fs : Files)
    (res tarball : jsval) (cause : thrown) :
  http_get env (metadata_url nodeName) = Ok res ->
  read_tarball res = Ok tarball ->
  js_truthy tarball = true ->
  download env tarball nodeDir = Throw cause ->
  result_of (handleFile env nodeDir nodeName fs)
    = Throw (DownloadError
               ("Failed to download the binary file: " ++ message_text cause))
  /\ In (LogError "Failed to download the file" cause)
        (events_of (handleFile env nodeDir nodeName fs))
  /\ filter is_extract (events_of (handleFile env nodeDir nodeName fs)) = []
  /\ files_of (handleFile env nodeDir nodeName fs) = fs.
Proof.
  intros H Hr Ht Hd. rewrite handleFile_run. cbv zeta.
  rewrite H, Hr, Ht, Hd. repeat split. cbn. auto.
Qed.

(** X6: an answer whose [dist] can be read but holds no usable
    [tarball] (none, [null] or the empty string) ends in a
    [DownloadError] whose message names the address that was asked; no
    download is started. *)
Theorem answer_without_tarball_names_the_url
    (env : Env) (nodeDir nodeName : string) (fs : Files) (res tarball : jsval) :
  http_get env (metadata_url nodeName) = Ok res ->
  read_tarball res = Ok tarball ->
  js_truthy tarball = false ->
  (exists m,
      result_of (handleFile env nodeDir nodeName fs) = Throw (DownloadError m)
      /\ occurs_in (metadata_url nodeName) m)
  /\ network_requests (events_of (handleFile env nodeDir nodeName fs))
     = [HttpGet (metadata_url nodeName)]
  /\ files_of (handleFile env nodeDir nodeName fs) = fs.
Proof.
  intros H Hr Ht.
  rewrite (handleFile_no_tarball env nodeDir nodeName fs res tarball H Hr Ht).
  split; [|split; reflexivity].
  eexists. split; [reflexivity|]. apply occurs_in_end.
Qed.

(** X7: what [extract] rejects with tells the stage: two runs that end
    at different stages (finished, read, gunzip, tar, set-up) never give
    the same result, whatever the underlying errors are. *)
Theorem extract_results_tell_the_stages_apart
    (env1 env2 : Env) (p1 p2 : string) (fs1 fs2 : Files) :
  stage (ending (unpack env1 p1)) <> stage (ending (unpack env2 p2)) ->
  result_of (extract env1 p1 fs1) <> result_of (extract env2 p2 fs2).
Proof.
  unfold extract. run_monad.
  destruct (ending (unpack env1 p1)); destruct (ending (unpack env2 p2));
    cbn [stage fst snd]; intros Hst E;
    try (apply Hst; reflexivity); try discriminate E;
    inversion E as [E']; cbn in E'; discriminate E'.
Qed.

End HandleFileOutcomes.

Lemma handleFile_returns_iff_every_stage_succeeded_witness :
  result_of (handleFile Scenario.healthy Scenario.nodeDir Scenario.nodeName [])
    = Ok tt
  /\ exists res tarball r p,
       http_get Scenario.healthy (metadata_url Scenario.nodeName) = Ok res
       /\ read_tarball res = Ok tarball
       /\ js_truthy tarball = true
       /\ download Scenario.healthy tarball Scenario.nodeDir = Ok r
       /\ downloadStatus r = "COMPLETE"
       /\ filePath r = Some p
       /\ ending (unpack Scenario.healthy p) = Finished
       /\ files_of (handleFile Scenario.healthy Scenario.nodeDir Scenario.nodeName [])
          = List.app (map (fun member => Path.dirname p ++ "/" ++ member)
                          (written (unpack Scenario.healthy p)))
                     [p].
Proof.
  assert (H : result_of (handleFile Scenario.healthy Scenario.nodeDir
                           Scenario.nodeName []) = Ok tt) by reflexivity.
  split; [exact H|].
  exact (proj1 (handleFile_returns_iff_every_stage_succeeded
                  Scenario.healthy Scenario.nodeDir Scenario.nodeName []) H).
Defined.

Lemma rejected_download_is_wrapped_witness :
  download Scenario.dropped
    (JString "https://registry.npmjs.org/@napi-rs/pinyin-linux-x64-gnu/-/pinyin-linux-x64-gnu-1.7.5.tgz")
    Scenario.nodeDir = Throw (Error "socket hang up")
  /\ result_of (handleFile Scenario.dropped Scenario.nodeDir Scenario.nodeName [])
     = Throw (DownloadError "Failed to download the binary file: socket hang up").
Proof.
  split; [reflexivity|].
  apply (rejected_download_is_wrapped Scenario.dropped Scenario.nodeDir
           Scenario.nodeName [] Scenario.metadata
           (JString "https://registry.npmjs.org/@napi-rs/pinyin-linux-x64-gnu/-/pinyin-linux-x64-gnu-1.7.5.tgz")
           (Error "socket hang up") eq_refl eq_refl eq_refl eq_refl).
Defined.

Lemma answer_without_tarball_names_the_url_witness :
  read_tarball (JObject [("dist", JObject [("shasum", JString "0a1b2c")])])
    = Ok JUndefined
  /\ network_requests
       (events_of (handleFile Scenario.no_tarball Scenario.nodeDir
                     Scenario.nodeName []))
     = [HttpGet (metadata_url Scenario.nodeName)].
Proof.
  split; [reflexivity|].
  apply (answer_without_tarball_names_the_url Scenario.no_tarball
           Scenario.nodeDir Scenario.nodeName []
           (JObject [("dist", JObject [("shasum", JString "0a1b2c")])])
           JUndefined eq_refl eq_refl eq_refl).
Defined.

Lemma extract_results_tell_the_stages_apart_witness :
  stage (ending (unpack Scenario.unreadable Scenario.archive))
    <> stage (ending (unpack Scenario.corrupt_gzip Scenario.archive))
  /\ result_of (extract Scenario.unreadable Scenario.archive [])
     <> result_of (extract Scenario.corrupt_gzip Scenario.archive []).
Proof.
  assert (H : stage (ending (unpack Scenario.unreadable Scenario.archive))
              <> stage (ending (unpack Scenario.corrupt_gzip Scenario.archive)))
    by (cbn; discriminate).
  split; [exact H|].
  exact (extract_results_tell_the_stages_apart
           Scenario.unreadable Scenario.corrupt_gzip
           Scenario.archive Scenario.archive [] [] H).
Defined.

Section ServiceRuns.

Import JsString JsStringFacts.

Lemma getNativeBinding_resolved (env : Env) (proc : Process)
    (nodeDir nodeName : string) (fs : Files) :
  TableDriven.resolve (platform proc) (arch proc) (isMusl proc) = Ok nodeName ->
  TableDriven.getNativeBinding env proc nodeDir fs =
    bindNative env (handleFile env) (platform proc) (arch proc) nodeDir nodeName fs.
Proof.
  intros H. unfold TableDriven.getNativeBinding, bind, lift. rewrite H.
  destruct (bindNative _ _ _ _ _ _ fs) as [[r f] evs]. reflexivity.
Qed.

Lemma getNativeBinding_unresolved (env : Env) (proc : Process)
    (nodeDir : string) (fs : Files) (e : thrown) :
  TableDriven.resolve (platform proc) (arch proc) (isMusl proc) = Throw e ->
  TableDriven.getNativeBinding env proc nodeDir fs = (Throw e, fs, []).
Proof.
  intros H. unfold TableDriven.getNativeBinding, bind, lift. now rewrite H.
Qed.


Lemma switch_getNativeBinding_unresolved (env : Env)
    (handleFile3 : string -> string -> M unit) (proc : Process)
    (nodeDir : string) (fs : Files) (e : thrown) :
  NestedSwitch.resolve (platform proc) (arch proc) (isMusl proc) = Throw e ->
  NestedSwitch.getNativeBinding env handleFile3 proc nodeDir fs = (Throw e, fs, []).
Proof.
  intros H. unfold NestedSwitch.getNativeBinding, bind, lift. now rewrite H.
Qed.



(** X8: on a platform or architecture without an entry, neither
    version of [getNativeBinding] asks the network, loads anything or
    touches the disk: the [UnsupportedError] is thrown first, and [start]
    logs its one line about it and throws the same error on. *)
Theorem unsupported_platform_touches_nothing
    (env : Env) (handleFile3 : string -> string -> M unit)
    (proc : Process) (host : Host) (nodeDir : string) (fs : Files) :
  table_entry (isMusl proc) (platform proc) (arch proc) = None ->
  (exists m, TableDriven.getNativeBinding env proc nodeDir fs
             = (Throw (UnsupportedError m), fs, []))
  /\ (exists m, NestedSwitch.getNativeBinding env handleFile3 proc nodeDir fs
                = (Throw (UnsupportedError m), fs, []))
  /\ (mkdir host (nodeDir_of host) = None ->
      (exists m, TableDriven.start env proc host fs
                 = (Throw (UnsupportedError m), fs,
                    [ErrorLine "Pinyin 目前不支持你的系统"]))
      /\ (exists m, NestedSwitch.start env handleFile3 proc host fs
                    = (Throw (UnsupportedError m), fs,
                       [ErrorLine "pinyin 目前不支持你的系统"]))).
Proof.
  intros E.
  destruct (table_resolve_no_entry _ _ _ E) as [mt Ht].
  pose proof (switch_resolve_entry (platform proc) (arch proc) (isMusl proc)) as Hs.
  rewrite E in Hs. destruct Hs as [ms Hs].
  split; [|split].
  - exists mt. now apply getNativeBinding_unresolved.
  - exists ms. now apply switch_getNativeBinding_unresolved.
  - intros Hm. split.
    + exists mt. unfold TableDriven.start, startService. rewrite Hm.
      now rewrite (getNativeBinding_unresolved env proc _ fs _ Ht).
    + exists ms. unfold NestedSwitch.start, startService. rewrite Hm.
      now rewrite (switch_getNativeBinding_unresolved env handleFile3 proc _ fs _ Hs).
Qed.



(** X11: when [handleFile] returns but the binary is not where it is
    looked for (the archive did not hold it), [getNativeBinding] throws
    the error that names the path, the platform and the architecture,
    not a [DownloadError]. *)
Theorem acquisition_without_the_binary_fails_to_load
    (env : Env) (proc : Process) (nodeDir nodeName : string) (fs : Files) :
  TableDriven.resolve (platform proc) (arch proc) (isMusl proc) = Ok nodeName ->
  on_disk fs (nodePath nodeDir nodeName) = false ->
  result_of (handleFile env nodeDir nodeName fs) = Ok tt ->
  on_disk (files_of (handleFile env nodeDir nodeName fs))
          (nodePath nodeDir nodeName) = false ->
  result_of (TableDriven.getNativeBinding env proc nodeDir fs)
    = Throw (Error ("Failed to use " ++ nodePath nodeDir nodeName ++ " on "
                    ++ platform proc ++ "-" ++ arch proc)).
Proof.
  intros Hr Hfs Hok Hafter.
  rewrite (getNativeBinding_resolved env proc _ nodeName fs Hr).
  destruct (handleFile env nodeDir nodeName fs) as [[r f] ev] eqn:Hh.
  unfold result_of, files_of in Hok, Hafter. cbn [fst snd] in Hok, Hafter.
  subst r. unfold nodePath in *.
  unfold bindNative, existsSync, tryCatch, bind, require, emit, throw, ret,
    result_of.
  rewrite Hfs. cbn -[on_disk]. rewrite Hh. cbn -[on_disk].
  rewrite Hafter. reflexivity.
Qed.

(** X12: a binary that is there and cannot be loaded gives the error
    that names its path, the platform and the architecture, whatever
    [require] threw (short of a [DownloadError]); the cause goes to the
    log. *)
Theorem unloadable_binary_names_path_platform_arch
    (env : Env) (proc : Process) (nodeDir nodeName : string) (fs : Files)
    (cause : thrown) :
  TableDriven.resolve (platform proc) (arch proc) (isMusl proc) = Ok nodeName ->
  on_disk fs (nodePath nodeDir nodeName) = true ->
  load env (nodePath nodeDir nodeName) = Some cause ->
  instanceof_DownloadError cause = false ->
  exists m,
    TableDriven.getNativeBinding env proc nodeDir fs
      = (Throw (Error m), fs,
         [Require (nodePath nodeDir nodeName);
          LogError "在处理二进制文件时遇到了错误" cause])
    /\ occurs_in (nodePath nodeDir nodeName) m
    /\ occurs_in (platform proc ++ "-" ++ arch proc) m.
Proof.
  intros Hr Hfs Hl Hc.
  rewrite (getNativeBinding_resolved env proc _ nodeName fs Hr).
  rewrite (bindNative_present env _ _ _ _ _ _ Hfs), Hl, Hc.
  eexists. split; [reflexivity|]. split.
  - apply occurs_in_middle.
  - do 2 apply occurs_in_app_r. apply occurs_in_end.
Qed.


End ServiceRuns.

Lemma unsupported_platform_touches_nothing_witness :
  table_entry (isMusl Scenario.sunos_x64) (platform Scenario.sunos_x64)
              (arch Scenario.sunos_x64) = None
  /\ (exists m, TableDriven.getNativeBinding Scenario.healthy Scenario.sunos_x64
                  Scenario.nodeDir []
                = (Throw (UnsupportedError m), [], []))
  /\ (exists m, TableDriven.start Scenario.healthy Scenario.sunos_x64
                  Scenario.host []
                = (Throw (UnsupportedError m), [],
                   [ErrorLine "Pinyin 目前不支持你的系统"])).
Proof.
  assert (E : table_entry (isMusl Scenario.sunos_x64) (platform Scenario.sunos_x64)
                (arch Scenario.sunos_x64) = None) by reflexivity.
  destruct (unsupported_platform_touches_nothing Scenario.healthy
              (handleFile Scenario.healthy) Scenario.sunos_x64 Scenario.host
              Scenario.nodeDir [] E) as [A [_ B]].
  split; [exact E|]. split; [exact A|]. exact (proj1 (B eq_refl)).
Defined.



Lemma acquisition_without_the_binary_fails_to_load_witness :
  result_of (handleFile Scenario.wrong_archive Scenario.nodeDir Scenario.nodeName [])
    = Ok tt
  /\ result_of (TableDriven.getNativeBinding Scenario.wrong_archive
                  Scenario.linux_x64 Scenario.nodeDir [])
     = Throw (Error ("Failed to use " ++ Scenario.binary ++ " on linux-x64")).
Proof.
  split; [reflexivity|].
  exact (acquisition_without_the_binary_fails_to_load Scenario.wrong_archive
           Scenario.linux_x64 Scenario.nodeDir Scenario.nodeName []
           eq_refl eq_refl eq_refl eq_refl).
Defined.

Lemma unloadable_binary_names_path_platform_arch_witness :
  load Scenario.broken_binary Scenario.binary = Some (Error "invalid ELF header")
  /\ exists m,
       TableDriven.getNativeBinding Scenario.broken_binary Scenario.linux_x64
         Scenario.nodeDir [Scenario.binary]
       = (Throw (Error m), [Scenario.binary],
          [Require Scenario.binary;
           LogError "在处理二进制文件时遇到了错误" (Error "invalid ELF header")])
       /\ JsString.occurs_in Scenario.binary m
       /\ JsString.occurs_in "linux-x64" m.
Proof.
  split; [reflexivity|].
  exact (unloadable_binary_names_path_platform_arch Scenario.broken_binary
           Scenario.linux_x64 Scenario.nodeDir Scenario.nodeName
           [Scenario.binary] (Error "invalid ELF header")
           eq_refl eq_refl eq_refl eq_refl).
Defined.

Section NamesAndPaths.

Import JsString JsStringFacts.

Lemma replace_first_occurrence (c : ascii) (a b rep : string) :
  free_of c a = true ->
  replace (a ++ String c b) (String c EmptyString) rep = a ++ rep ++ b.
Proof.
  intros Ha. induction a as [|d a IH].
  - cbn. destruct (ascii_dec c c) as [_|N]; [|contradiction].
    destruct b; reflexivity.
  - cbn in Ha. apply andb_true_iff in Ha as [Hd Ha].
    apply negb_true_iff, Ascii.eqb_neq in Hd.
    cbn. destruct (ascii_dec c d) as [->|_]; [contradiction|].
    cbn in IH. now rewrite (IH Ha).
Qed.

Lemma replace_absent (c : ascii) (s rep : string) :
  free_of c s = true ->
  replace s (String c EmptyString) rep = s.
Proof.
  intros Hs. induction s as [|d s IH]; [reflexivity|].
  cbn in Hs. apply andb_true_iff in Hs as [Hd Hs].
  apply negb_true_iff, Ascii.eqb_neq in Hd.
  cbn. destruct (ascii_dec c d) as [->|_]; [contradiction|].
  cbn in IH. now rewrite (IH Hs).
Qed.

Lemma length_append (a b : string) :
  String.length (a ++ b) = String.length a + String.length b.
Proof. induction a as [|c a IH]; cbn; [reflexivity | now rewrite IH]. Qed.

Lemma append_cancel_l (a x y : string) : a ++ x = a ++ y -> x = y.
Proof. induction a as [|c a IH]; cbn; intros H; [exact H | inversion H; auto]. Qed.

Lemma append_cancel_r (s x y : string) : x ++ s = y ++ s -> x = y.
Proof.
  revert y. induction x as [|c x IH]; intros [|d y] H; cbn in H.
  - reflexivity.
  - exfalso. apply (f_equal String.length) in H. cbn in H.
    rewrite length_append in H. lia.
  - exfalso. apply (f_equal String.length) in H. cbn in H.
    rewrite length_append in H. lia.
  - inversion H; subst. f_equal. now apply IH.
Qed.

Lemma artifact_names_eq :
  artifact_names =
    [ "pinyin.android-arm64"; "pinyin.android-arm-eabi";
      "pinyin.win32-x64-msvc"; "pinyin.win32-ia32-msvc"; "pinyin.win32-arm64-msvc";
      "pinyin.darwin-x64"; "pinyin.darwin-arm64"; "pinyin.freebsd-x64";
      "pinyin.linux-x64-gnu"; "pinyin.linux-arm64-gnu"; "pinyin.linux-arm-gnueabihf";
      "pinyin.android-arm64"; "pinyin.android-arm-eabi";
      "pinyin.win32-x64-msvc"; "pinyin.win32-ia32-msvc"; "pinyin.win32-arm64-msvc";
      "pinyin.darwin-x64"; "pinyin.darwin-arm64"; "pinyin.freebsd-x64";
      "pinyin.linux-x64-musl"; "pinyin.linux-arm64-musl";
      "pinyin.linux-arm-gnueabihf" ].
Proof. reflexivity. Qed.

(** What the table-driven resolver returns is a name of the table. *)
Lemma resolved_name_is_in_the_table (platform arch : string) (musl : bool)
    (name : string) :
  TableDriven.resolve platform arch musl = Ok name -> In name artifact_names.
Proof.
  intros H.
  destruct (table_entry musl platform arch) as [id|] eqn:E.
  - rewrite (table_resolve_entry _ _ _ _ E) in H. inversion H; subst id.
    assert (S : In (platform, arch) supported_pairs)
      by (apply (supported_iff_entry platform arch musl); eauto).
    split_in S supported_pairs_eq; destruct musl; vm_compute in E;
      inversion E; vm_compute; tauto.
  - destruct (table_resolve_no_entry _ _ _ E) as [m Hm]. congruence.
Qed.

(** X14: [nodeName.replace('.', '-')] touches the first dot only: the
    registry address of a name [a.b], [a] without a dot, is that of the
    package [@napi-rs/a-b], later dots of [b] kept; a name without a dot
    is asked for as it is. *)
Theorem metadata_url_replaces_the_first_dot_only (a b : string) :
  free_of "." a = true ->
  metadata_url (a ++ "." ++ b)
    = "https://registry.npmjs.com/@napi-rs/" ++ a ++ "-" ++ b ++ "/latest"
  /\ metadata_url a = "https://registry.npmjs.com/@napi-rs/" ++ a ++ "/latest".
Proof.
  intros Ha. unfold metadata_url. split.
  - change (a ++ "." ++ b) with (a ++ String "." b).
    rewrite (replace_first_occurrence "." a b "-" Ha).
    now rewrite !append_assoc.
  - now rewrite (replace_absent "." a "-" Ha).
Qed.

(** X15: every name the resolver returns is asked of the registry as
    the package [@napi-rs/pinyin-...], and two different names never
    share the registry address nor the path of the binary under one
    directory: no artifact is fetched or found in place of another. *)
Theorem artifacts_keep_their_own_package_and_file
    (p1 a1 p2 a2 : string) (m1 m2 : bool) (n1 n2 nodeDir : string) :
  TableDriven.resolve p1 a1 m1 = Ok n1 ->
  TableDriven.resolve p2 a2 m2 = Ok n2 ->
  (exists rest,
      n1 = "pinyin." ++ rest
      /\ metadata_url n1
         = "https://registry.npmjs.com/@napi-rs/pinyin-" ++ rest ++ "/latest")
  /\ (n1 <> n2 ->
      metadata_url n1 <> metadata_url n2
      /\ nodePath nodeDir n1 <> nodePath nodeDir n2).
Proof.
  intros H1 H2.
  apply resolved_name_is_in_the_table in H1, H2.
  split.
  - clear H2. split_names H1 artifact_names_eq; eexists; split; reflexivity.
  - intros Hne. split.
    + intros E. apply Hne. clear Hne. revert E.
      split_names H1 artifact_names_eq; split_names H2 artifact_names_eq;
        vm_compute; intros E; solve [reflexivity | discriminate E].
    + intros E. apply Hne. unfold nodePath, Path.join3 in E.
      apply append_cancel_l in E. cbn in E. inversion E as [E'].
      now apply append_cancel_r in E'.
Qed.

(** X16: on Linux x64 the glibc build is chosen exactly when the
    process report gives a non-empty [glibcVersionRuntime], or, without
    a usable report, when the text of the file [which ldd] names could
    be read and does not mention musl.  In every other case - no version
    in the report, a probe that throws - the musl build is chosen. *)
Theorem glibc_build_is_chosen_iff (p : Process) :
  platform p = "linux" ->
  arch p = "x64" ->
  (TableDriven.resolve (platform p) (arch p) (isMusl p) = Ok "pinyin.linux-x64-gnu"
   <-> (exists v, report p = Some (Some v) /\ v <> EmptyString)
       \/ (report p = None
           /\ exists text, ldd p = Some text /\ ~ occurs_in "musl" text))
  /\ (TableDriven.resolve (platform p) (arch p) (isMusl p)
        = Ok "pinyin.linux-x64-gnu"
      \/ TableDriven.resolve (platform p) (arch p) (isMusl p)
         = Ok "pinyin.linux-x64-musl").
Proof.
  intros -> ->.
  assert (R : forall m, TableDriven.resolve "linux" "x64" m
                        = Ok (if m then "pinyin.linux-x64-musl"
                              else "pinyin.linux-x64-gnu"))
    by (intros []; reflexivity).
  rewrite R. split; [|destruct (isMusl p); auto].
  unfold isMusl.
  destruct (report p) as [[v|]|].
  - destruct v as [|c v]; cbn; split.
    + discriminate.
    + intros [[v' [H N]] | [H _]]; [inversion H; subst; contradiction | discriminate].
    + intros _. left. eexists. split; [reflexivity | discriminate].
    + reflexivity.
  - split; [discriminate|].
    intros [[v' [H _]] | [H _]]; discriminate.
  - destruct (ldd p) as [text|].
    + destruct (includes text "musl") eqn:I; split.
      * discriminate.
      * intros [[v' [H _]] | [_ [t [H N]]]]; [discriminate|].
        inversion H; subst. exfalso. apply N. now apply includes_spec.
      * intros _. right. split; [reflexivity|]. exists text. split; [reflexivity|].
        now apply includes_false.
      * reflexivity.
    + split; [discriminate|].
      intros [[v' [H _]] | [_ [t [H _]]]]; discriminate.
Qed.

End NamesAndPaths.

Lemma metadata_url_replaces_the_first_dot_only_witness :
  free_of "." "pinyin" = true
  /\ metadata_url "pinyin.linux-x64.debug"
     = "https://registry.npmjs.com/@napi-rs/pinyin-linux-x64.debug/latest".
Proof.
  split; [reflexivity|].
  exact (proj1 (metadata_url_replaces_the_first_dot_only
                  "pinyin" "linux-x64.debug" eq_refl)).
Defined.

Lemma artifacts_keep_their_own_package_and_file_witness :
  TableDriven.resolve "linux" "x64" true = Ok "pinyin.linux-x64-musl"
  /\ TableDriven.resolve "linux" "x64" false = Ok "pinyin.linux-x64-gnu"
  /\ metadata_url "pinyin.linux-x64-musl" <> metadata_url "pinyin.linux-x64-gnu"
  /\ nodePath Scenario.nodeDir "pinyin.linux-x64-musl"
     <> nodePath Scenario.nodeDir "pinyin.linux-x64-gnu".
Proof.
  split; [reflexivity|]. split; [reflexivity|].
  apply (proj2 (artifacts_keep_their_own_package_and_file
                  "linux" "x64" "linux" "x64" true false
                  "pinyin.linux-x64-musl" "pinyin.linux-x64-gnu"
                  Scenario.nodeDir eq_refl eq_refl)).
  discriminate.
Defined.

Lemma glibc_build_is_chosen_iff_witness :
  platform Scenario.linux_x64 = "linux"
  /\ arch Scenario.linux_x64 = "x64"
  /\ TableDriven.resolve (platform Scenario.linux_x64) (arch Scenario.linux_x64)
       (isMusl Scenario.linux_x64) = Ok "pinyin.linux-x64-gnu".
Proof.
  split; [reflexivity|]. split; [reflexivity|].
  apply (proj1 (glibc_build_is_chosen_iff Scenario.linux_x64 eq_refl eq_refl)).
  left. exists "2.31". split; [reflexivity | discriminate].
Defined.

Section CommandReplies.

Import JsString JsStringFacts Command.

Lemma join_cons (sep x : string) (l : list string) :
  l <> [] -> join sep (x :: l) = x ++ sep ++ join sep l.
Proof. destruct l; [contradiction | reflexivity]. Qed.

Lemma join_app (sep : string) (l1 l2 : list string) :
  l1 <> [] -> l2 <> [] ->
  join sep (List.app l1 l2) = join sep l1 ++ sep ++ join sep l2.
Proof.
  intros H1 H2. induction l1 as [|x l1 IH]; [contradiction|].
  destruct l1 as [|y l1].
  - cbn [List.app]. now rewrite join_cons.
  - change (List.app (x :: y :: l1) l2) with (x :: List.app (y :: l1) l2).
    rewrite join_cons by discriminate.
    rewrite IH by discriminate.
    rewrite (join_cons sep x (y :: l1)) by discriminate.
    now rewrite !append_assoc.
Qed.

Lemma space_free_is_not_split (x y r : string) :
  free_of " " x = true -> x = y ++ " " ++ r -> False.
Proof.
  revert x. induction y as [|c y IH]; intros x Hx E; subst x; cbn in Hx.
  - discriminate Hx.
  - apply andb_true_iff in Hx as [_ Hx]. now apply (IH _ Hx).
Qed.

Lemma space_free_heads_agree (x y r1 r2 : string) :
  free_of " " x = true -> free_of " " y = true ->
  x ++ " " ++ r1 = y ++ " " ++ r2 -> x = y /\ r1 = r2.
Proof.
  revert y. induction x as [|c x IH]; intros [|d y] Hx Hy E; cbn in E.
  - inversion E. auto.
  - inversion E; subst. cbn in Hy. discriminate Hy.
  - inversion E; subst. cbn in Hx. discriminate Hx.
  - inversion E; subst. cbn in Hx, Hy.
    apply andb_true_iff in Hx as [_ Hx]. apply andb_true_iff in Hy as [_ Hy].
    destruct (IH y Hx Hy H1) as [-> ->]. auto.
Qed.

Lemma format_of_texts (l : list string) : format (map Text l) = join " " l.
Proof. unfold format. rewrite map_map. cbn. now rewrite map_id. Qed.

(** X17: the reply is built piece by piece: the text for a conversion
    made of two non-empty parts is the text of the first part, a space,
    and the text of the second. *)
Theorem format_of_two_parts (xs ys : list element) :
  xs <> [] -> ys <> [] ->
  format (List.app xs ys) = format xs ++ " " ++ format ys.
Proof.
  intros Hx Hy. unfold format. rewrite map_app.
  apply join_app; intros E; apply map_eq_nil in E; contradiction.
Qed.

(** When no syllable is empty or holds a space, the text determines the
    list of syllables. *)
Lemma format_injective_on_syllables (xs ys : list string) :
  forallb syllable xs = true ->
  forallb syllable ys = true ->
  format (map Text xs) = format (map Text ys) ->
  xs = ys.
Proof.
  rewrite !format_of_texts.
  assert (S : forall s, syllable s = true ->
                        s <> EmptyString /\ free_of " " s = true).
  { intros s H. apply andb_true_iff in H as [T F]. split; [|exact F].
    intros ->. discriminate T. }
  revert ys. induction xs as [|x xs IH]; intros ys Hx Hy E.
  - destruct ys as [|y [|y' ys]]; [reflexivity| |]; cbn in Hy;
      apply andb_true_iff in Hy as [Hy _]; apply S in Hy as [Ny _]; cbn in E.
    + now subst y.
    + destruct y; [contradiction | discriminate E].
  - cbn [forallb] in Hx. apply andb_true_iff in Hx as [Hx Hxs].
    destruct (S x Hx) as [Nx Fx].
    destruct ys as [|y ys].
    + destruct xs; cbn in E; [now subst x|].
      destruct x; [contradiction | discriminate E].
    + cbn [forallb] in Hy. apply andb_true_iff in Hy as [Hy Hys].
      destruct (S y Hy) as [Ny Fy].
      destruct xs as [|x' xs]; destruct ys as [|y' ys].
      * cbn in E. now subst.
      * exfalso. rewrite (join_cons " " y (y' :: ys)) in E by discriminate.
        cbn [join String.concat] in E.
        exact (space_free_is_not_split x y _ Fx E).
      * exfalso. rewrite (join_cons " " x (x' :: xs)) in E by discriminate.
        cbn [join String.concat] in E. symmetry in E.
        exact (space_free_is_not_split y x _ Fy E).
      * rewrite (join_cons " " x (x' :: xs)) in E by discriminate.
        rewrite (join_cons " " y (y' :: ys)) in E by discriminate.
        destruct (space_free_heads_agree x y _ _ Fx Fy E) as [-> E'].
        f_equal. now apply IH.
Qed.

(** X18: without [heteronym], when no syllable is empty or holds a
    space, the reply can be read back: two non-empty messages quoted
    alike get the same reply only when they were converted to the same
    list of syllables. *)
Theorem replies_can_be_read_back
    (pinyin : string -> PinyinConvertOptions -> list element)
    (quote : string) (options : Options) (m1 m2 : string) (xs ys : list string) :
  truthy m1 = true ->
  truthy m2 = true ->
  pinyin m1 (mkConvert (opt_output options) (opt_heteronym options)
                       (opt_segment options)) = map Text xs ->
  pinyin m2 (mkConvert (opt_output options) (opt_heteronym options)
                       (opt_segment options)) = map Text ys ->
  forallb syllable xs = true ->
  forallb syllable ys = true ->
  action pinyin quote options (Some m1) = action pinyin quote options (Some m2) ->
  xs = ys.
Proof.
  intros T1 T2 P1 P2 Sx Sy. unfold action. rewrite T1, T2, P1, P2.
  intros E. apply append_cancel_l in E.
  now apply format_injective_on_syllables.
Qed.

End CommandReplies.

Lemma format_of_two_parts_witness :
  Command.format
    [Command.Text "zhōng"; Command.Readings ["xīn"; "xìn"]; Command.Text "tài"]
  = "zhōng" ++ " " ++ "xīn/xìn tài".
Proof.
  apply (format_of_two_parts [Command.Text "zhōng"]
           [Command.Readings ["xīn"; "xìn"]; Command.Text "tài"]);
    discriminate.
Defined.

Lemma replies_can_be_read_back_witness :
  forallb Command.syllable ["ni"; "hao"] = true
  /\ Command.action (fun _ _ => map Command.Text ["ni"; "hao"])
       "<quote id=1/>" (Command.mkOptions false true 0) (Some "你好")
     = "<quote id=1/>ni hao"
  /\ ["ni"; "hao"] = ["ni"; "hao"].
Proof.
  split; [reflexivity|]. split; [reflexivity|].
  exact (replies_can_be_read_back
           (fun _ _ => map Command.Text ["ni"; "hao"]) "<quote id=1/>"
           (Command.mkOptions false true 0) "你好" "你好"
           ["ni"; "hao"] ["ni"; "hao"]
           eq_refl eq_refl eq_refl eq_refl eq_refl eq_refl eq_refl).
Defined.
